(** * Purple Bank Transfer: the transfer wizard, its validation schemas and
      the summary masking, embedded from the TypeScript sources.

    Sources embedded here:
    - [TransferSummary.tsx]  (first document of src/unnamed/part_000)
    - [TransferForm.tsx], tabbed domestic/international wizard
      (second document of src/unnamed/part_000)
    - [src/components/TransferForm.tsx], the Stripe-enabled international
      wizard.

    Library behaviour the sources rely on (ECMAScript string operations and
    [Number], zod 3 schemas, react-hook-form's resolver, [reset] and
    [handleSubmit]) is written out in the modules [JS], [Zod] and [RHF]. *)

From Stdlib Require Import String Ascii List NArith ZArith Bool Lia.
From Stdlib Require DecimalString.
Import ListNotations.

(* ================================================================== *)
(** ** ECMAScript strings and numbers                                   *)
(* ================================================================== *)

Module JS.

(** A JavaScript string is a sequence of UTF-16 code units; [length]
    is the [.length] property. *)
Definition codeunit := N.
Definition jsstring := list codeunit.

(** String literal of the source whose characters are all ASCII. *)
Definition js (s : string) : jsstring :=
  map N_of_ascii (list_ascii_of_string s).

Definition jsstring_eqb (a b : jsstring) : bool :=
  if list_eq_dec N.eq_dec a b then true else false.

(** [String.prototype.slice(start, end)]: a negative index counts from
    the end, every index is clamped to [0, length]. *)
Definition relative_index (len k : Z) : Z :=
  if (k <? 0)%Z then Z.max (len + k) 0 else Z.min k len.

Definition slice (s : jsstring) (start : Z) (end_ : option Z) : jsstring :=
  let len := Z.of_nat (length s) in
  let from := relative_index len start in
  let final := match end_ with
               | None => len
               | Some e => relative_index len e
               end in
  firstn (Z.to_nat (Z.max (final - from) 0)) (skipn (Z.to_nat from) s).

(** LineTerminator: LF, CR, LS, PS. *)
Definition isLineTerminator (c : codeunit) : bool :=
  (c =? 10)%N || (c =? 13)%N || (c =? 8232)%N || (c =? 8233)%N.

(** [s.replace(/./g, replacement)]: without the [s] flag the dot
    matches every code unit but a line terminator; [replacement] holds
    no [$] pattern in the sources. *)
Definition replace_dot_g (s replacement : jsstring) : jsstring :=
  flat_map (fun c => if isLineTerminator c then [c] else replacement) s.

(** [x || ""] on a value that is a string or [undefined]. *)
Definition or_empty (x : option jsstring) : jsstring :=
  match x with
  | Some (c :: s) => c :: s
  | Some [] => []
  | None => []
  end.

(** Truthiness of a string-or-undefined value. *)
Definition truthy (x : option jsstring) : bool :=
  match x with
  | Some (_ :: _) => true
  | _ => false
  end.

(** *** [Number(string)] (StringToNumber)

    The result is kept as the exact mathematical value of the literal
    together with the special values; what rounding to binary64 does
    to the comparisons used by the sources is written out in
    [gt_zero]. *)
Inductive number :=
| NaN
| Infinity (negative : bool)
| Dec (negative : bool) (mantissa : N) (exp10 : Z).
    (* (-1)^negative * mantissa * 10^exp10, before rounding *)

(** StrWhiteSpaceChar: WhiteSpace (TAB, VT, FF, ZWNBSP, category Zs)
    and LineTerminator. *)
Definition isStrWhiteSpaceChar (c : codeunit) : bool :=
  (c =? 9)%N || (c =? 11)%N || (c =? 12)%N || (c =? 65279)%N
  || (c =? 32)%N || (c =? 160)%N || (c =? 5760)%N
  || ((8192 <=? c)%N && (c <=? 8202)%N)
  || (c =? 8239)%N || (c =? 8287)%N || (c =? 12288)%N
  || isLineTerminator c.

Fixpoint trimStart (s : jsstring) : jsstring :=
  match s with
  | c :: r => if isStrWhiteSpaceChar c then trimStart r else s
  | [] => []
  end.

Definition trim (s : jsstring) : jsstring :=
  rev (trimStart (rev (trimStart s))).

(** Value of a digit in the given radix, if it is one. *)
Definition digitValue (radix : N) (c : codeunit) : option N :=
  let v := if ((48 <=? c) && (c <=? 57))%N then Some (c - 48)%N
           else if ((97 <=? c) && (c <=? 122))%N then Some (c - 87)%N
           else if ((65 <=? c) && (c <=? 90))%N then Some (c - 55)%N
           else None in
  match v with
  | Some d => if (d <? radix)%N then Some d else None
  | None => None
  end.

(** Longest prefix of digits: (value so far, number of digits, rest). *)
Fixpoint digits (radix : N) (acc : N) (n : nat) (s : jsstring)
  : N * nat * jsstring :=
  match s with
  | c :: r =>
      match digitValue radix c with
      | Some d => digits radix (acc * radix + d)%N (S n) r
      | None => (acc, n, s)
      end
  | [] => (acc, n, [])
  end.

(** ExponentPart (optional): [e] or [E], an optional sign, one or more
    digits.  [None] when an exponent indicator is not followed by a
    well-formed exponent. *)
Definition exponentPart (s : jsstring) : option (Z * jsstring) :=
  match s with
  | c :: r =>
      if ((c =? 101) || (c =? 69))%N then
        let '(neg, r') := match r with
                          | sgn :: r' =>
                              if (sgn =? 45)%N then (true, r')
                              else if (sgn =? 43)%N then (false, r')
                              else (false, r)
                          | [] => (false, r)
                          end in
        match digits 10 0 0 r' with
        | (_, O, _) => None
        | (v, S _, rest) =>
            Some (if neg then (- Z.of_N v)%Z else Z.of_N v, rest)
        end
      else Some (0%Z, s)
  | [] => Some (0%Z, [])
  end.

(** StrUnsignedDecimalLiteral. *)
Definition strUnsignedDecimalLiteral (negative : bool) (s : jsstring)
  : number :=
  if jsstring_eqb s (js "Infinity") then Infinity negative else
  let '(ip, nip, r1) := digits 10 0 0 s in
  let '(m, nfp, r2) :=
    match r1 with
    | c :: r => if (c =? 46)%N then digits 10 ip 0 r else (ip, O, r1)
    | [] => (ip, O, r1)
    end in
  match (nip + nfp)%nat with
  | O => NaN
  | S _ =>
      match exponentPart r2 with
      | Some (e, []) => Dec negative m (e - Z.of_nat nfp)
      | _ => NaN
      end
  end.

(** NonDecimalIntegerLiteral: [0x], [0o], [0b] prefixes, no sign. *)
Definition nonDecimalIntegerLiteral (s : jsstring) : option number :=
  match s with
  | z :: p :: r =>
      if (z =? 48)%N then
        let radix := if ((p =? 120) || (p =? 88))%N then Some 16%N
                     else if ((p =? 111) || (p =? 79))%N then Some 8%N
                     else if ((p =? 98) || (p =? 66))%N then Some 2%N
                     else None in
        match radix with
        | Some rx =>
            match digits rx 0 0 r with
            | (v, S _, []) => Some (Dec false v 0)
            | _ => Some NaN
            end
        | None => None
        end
      else None
  | _ => None
  end.

Definition Number (s : jsstring) : number :=
  match trim s with
  | [] => Dec false 0 0
  | c :: r =>
      match nonDecimalIntegerLiteral (c :: r) with
      | Some n => n
      | None =>
          if (c =? 45)%N then strUnsignedDecimalLiteral true r
          else if (c =? 43)%N then strUnsignedDecimalLiteral false r
          else strUnsignedDecimalLiteral false (c :: r)
      end
  end.

Definition isNaN (n : number) : bool :=
  match n with NaN => true | _ => false end.

(** [n > 0] on the Number value of [n].  A positive literal rounds to a
    positive binary64 value unless it is at most 2^-1075, half the
    least subnormal, in which case it rounds to +0. *)
Definition gt_zero (n : number) : bool :=
  match n with
  | NaN => false
  | Infinity negative => negb negative
  | Dec true _ _ => false
  | Dec false m e =>
      if (0 <=? e)%Z then (0 <? m)%N
      else (10 ^ (- e) <? Z.of_N m * 2 ^ 1075)%Z
  end.

End JS.

Import JS.

(* ================================================================== *)
(** ** The form values object                                           *)
(* ================================================================== *)

Inductive TransferType := domestic | international.

Definition TransferType_eqb (a b : TransferType) : bool :=
  match a, b with
  | domestic, domestic | international, international => true
  | _, _ => false
  end.

(** The object held by the form and handed to the summary ([formData]);
    a key that is absent or [undefined] is [None].  The keys are those
    of the three schemas of the repository. *)
Record FormValues := {
  transferType : option TransferType;
  recipientName : option jsstring;
  accountNumber : option jsstring;
  routingNumber : option jsstring;
  bankName : option jsstring;
  amount : option jsstring;
  description : option jsstring;
  iban : option jsstring;
  swiftCode : option jsstring;
  bankAddress : option jsstring;
  bankCountry : option jsstring;
  currency : option jsstring;
  useStripe : option bool;
  stripeAccountId : option jsstring;
  stripePublishableKey : option jsstring
}.

(** [{ ...v, key: x }], key by key. *)
Definition with_recipientName (x : jsstring) (v : FormValues) : FormValues :=
  {| transferType := transferType v; recipientName := Some x;
     accountNumber := accountNumber v;
     routingNumber := routingNumber v; bankName := bankName v;
     amount := amount v; description := description v; iban := iban v;
     swiftCode := swiftCode v; bankAddress := bankAddress v;
     bankCountry := bankCountry v; currency := currency v;
     useStripe := useStripe v; stripeAccountId := stripeAccountId v;
     stripePublishableKey := stripePublishableKey v |}.

Definition with_accountNumber (x : jsstring) (v : FormValues) : FormValues :=
  {| transferType := transferType v; recipientName := recipientName v;
     accountNumber := Some x; routingNumber := routingNumber v;
     bankName := bankName v; amount := amount v;
     description := description v; iban := iban v;
     swiftCode := swiftCode v; bankAddress := bankAddress v;
     bankCountry := bankCountry v; currency := currency v;
     useStripe := useStripe v; stripeAccountId := stripeAccountId v;
     stripePublishableKey := stripePublishableKey v |}.

Definition with_routingNumber (x : jsstring) (v : FormValues) : FormValues :=
  {| transferType := transferType v; recipientName := recipientName v;
     accountNumber := accountNumber v; routingNumber := Some x;
     bankName := bankName v; amount := amount v;
     description := description v; iban := iban v;
     swiftCode := swiftCode v; bankAddress := bankAddress v;
     bankCountry := bankCountry v; currency := currency v;
     useStripe := useStripe v; stripeAccountId := stripeAccountId v;
     stripePublishableKey := stripePublishableKey v |}.

Definition with_bankName (x : jsstring) (v : FormValues) : FormValues :=
  {| transferType := transferType v; recipientName := recipientName v;
     accountNumber := accountNumber v;
     routingNumber := routingNumber v; bankName := Some x;
     amount := amount v; description := description v; iban := iban v;
     swiftCode := swiftCode v; bankAddress := bankAddress v;
     bankCountry := bankCountry v; currency := currency v;
     useStripe := useStripe v; stripeAccountId := stripeAccountId v;
     stripePublishableKey := stripePublishableKey v |}.

Definition with_amount (x : jsstring) (v : FormValues) : FormValues :=
  {| transferType := transferType v; recipientName := recipientName v;
     accountNumber := accountNumber v;
     routingNumber := routingNumber v; bankName := bankName v;
     amount := Some x; description := description v; iban := iban v;
     swiftCode := swiftCode v; bankAddress := bankAddress v;
     bankCountry := bankCountry v; currency := currency v;
     useStripe := useStripe v; stripeAccountId := stripeAccountId v;
     stripePublishableKey := stripePublishableKey v |}.

Definition with_description (x : jsstring) (v : FormValues) : FormValues :=
  {| transferType := transferType v; recipientName := recipientName v;
     accountNumber := accountNumber v;
     routingNumber := routingNumber v; bankName := bankName v;
     amount := amount v; description := Some x; iban := iban v;
     swiftCode := swiftCode v; bankAddress := bankAddress v;
     bankCountry := bankCountry v; currency := currency v;
     useStripe := useStripe v; stripeAccountId := stripeAccountId v;
     stripePublishableKey := stripePublishableKey v |}.

Definition with_iban (x : jsstring) (v : FormValues) : FormValues :=
  {| transferType := transferType v; recipientName := recipientName v;
     accountNumber := accountNumber v;
     routingNumber := routingNumber v; bankName := bankName v;
     amount := amount v; description := description v; iban := Some x;
     swiftCode := swiftCode v; bankAddress := bankAddress v;
     bankCountry := bankCountry v; currency := currency v;
     useStripe := useStripe v; stripeAccountId := stripeAccountId v;
     stripePublishableKey := stripePublishableKey v |}.

Definition with_swiftCode (x : jsstring) (v : FormValues) : FormValues :=
  {| transferType := transferType v; recipientName := recipientName v;
     accountNumber := accountNumber v;
     routingNumber := routingNumber v; bankName := bankName v;
     amount := amount v; description := description v; iban := iban v;
     swiftCode := Some x; bankAddress := bankAddress v;
     bankCountry := bankCountry v; currency := currency v;
     useStripe := useStripe v; stripeAccountId := stripeAccountId v;
     stripePublishableKey := stripePublishableKey v |}.

Definition with_bankAddress (x : jsstring) (v : FormValues) : FormValues :=
  {| transferType := transferType v; recipientName := recipientName v;
     accountNumber := accountNumber v;
     routingNumber := routingNumber v; bankName := bankName v;
     amount := amount v; description := description v; iban := iban v;
     swiftCode := swiftCode v; bankAddress := Some x;
     bankCountry := bankCountry v; currency := currency v;
     useStripe := useStripe v; stripeAccountId := stripeAccountId v;
     stripePublishableKey := stripePublishableKey v |}.

Definition with_bankCountry (x : jsstring) (v : FormValues) : FormValues :=
  {| transferType := transferType v; recipientName := recipientName v;
     accountNumber := accountNumber v;
     routingNumber := routingNumber v; bankName := bankName v;
     amount := amount v; description := description v; iban := iban v;
     swiftCode := swiftCode v; bankAddress := bankAddress v;
     bankCountry := Some x; currency := currency v;
     useStripe := useStripe v; stripeAccountId := stripeAccountId v;
     stripePublishableKey := stripePublishableKey v |}.

Definition with_currency (x : jsstring) (v : FormValues) : FormValues :=
  {| transferType := transferType v; recipientName := recipientName v;
     accountNumber := accountNumber v;
     routingNumber := routingNumber v; bankName := bankName v;
     amount := amount v; description := description v; iban := iban v;
     swiftCode := swiftCode v; bankAddress := bankAddress v;
     bankCountry := bankCountry v; currency := Some x;
     useStripe := useStripe v; stripeAccountId := stripeAccountId v;
     stripePublishableKey := stripePublishableKey v |}.

Definition with_stripeAccountId (x : jsstring) (v : FormValues) : FormValues :=
  {| transferType := transferType v; recipientName := recipientName v;
     accountNumber := accountNumber v;
     routingNumber := routingNumber v; bankName := bankName v;
     amount := amount v; description := description v; iban := iban v;
     swiftCode := swiftCode v; bankAddress := bankAddress v;
     bankCountry := bankCountry v; currency := currency v;
     useStripe := useStripe v; stripeAccountId := Some x;
     stripePublishableKey := stripePublishableKey v |}.

Definition with_stripePublishableKey (x : jsstring) (v : FormValues) : FormValues :=
  {| transferType := transferType v; recipientName := recipientName v;
     accountNumber := accountNumber v;
     routingNumber := routingNumber v; bankName := bankName v;
     amount := amount v; description := description v; iban := iban v;
     swiftCode := swiftCode v; bankAddress := bankAddress v;
     bankCountry := bankCountry v; currency := currency v;
     useStripe := useStripe v; stripeAccountId := stripeAccountId v;
     stripePublishableKey := Some x |}.

(* ================================================================== *)
(** ** zod schemas (version 3) and the react-hook-form resolver         *)
(* ================================================================== *)

Module Zod.

Record ZodIssue := { path : list string; message : string }.

(** Outcome of a schema on an input: [aborted] stops refinements of
    enclosing schemas, [dirty] records issues but keeps the value. *)
Inductive ParseStatus := valid | dirty | aborted.

Record ParseReturn := { status : ParseStatus; issues : list ZodIssue }.

Definition OK : ParseReturn := {| status := valid; issues := [] |}.

Definition INVALID (i : ZodIssue) : ParseReturn :=
  {| status := aborted; issues := [i] |}.

Definition mergeStatus (a b : ParseStatus) : ParseStatus :=
  match a, b with
  | aborted, _ | _, aborted => aborted
  | dirty, _ | _, dirty => dirty
  | valid, valid => valid
  end.

Definition decimal (n : nat) : string :=
  DecimalString.NilEmpty.string_of_uint (Nat.to_uint n).

Definition quote : string := String (ascii_of_nat 34) EmptyString.

(** Checks of [z.string()], with the message given in the source or
    zod's default one. *)
Inductive StringCheck :=
| min (n : nat) (msg : option string)
| max (n : nat) (msg : option string).

Definition checkPasses (s : jsstring) (c : StringCheck) : bool :=
  match c with
  | min n _ => n <=? length s
  | max n _ => length s <=? n
  end.

Definition checkMessage (c : StringCheck) : string :=
  match c with
  | min _ (Some m) | max _ (Some m) => m
  | min n None =>
      ("String must contain at least " ++ decimal n ++ " character(s)")%string
  | max n None =>
      ("String must contain at most " ++ decimal n ++ " character(s)")%string
  end.

Definition checkIssues (p : list string) (s : jsstring) (c : StringCheck)
  : list ZodIssue :=
  if checkPasses s c then []
  else [{| path := p; message := checkMessage c |}].

(** [z.string().min(..).max(..)] on [input] ([None] is [undefined]):
    a missing value aborts with [Required]; every failing check adds
    its issue and leaves the result dirty. *)
Definition string_ (checks : list StringCheck) (p : list string)
           (input : option jsstring) : ParseReturn :=
  match input with
  | None => INVALID {| path := p; message := "Required" |}
  | Some s =>
      let found := flat_map (checkIssues p s) checks in
      {| status := match found with [] => valid | _ => dirty end;
         issues := found |}
  end.

(** [schema.optional()]. *)
Definition optional {A} (schema : list string -> option A -> ParseReturn)
           (p : list string) (input : option A) : ParseReturn :=
  match input with
  | None => OK
  | Some _ => schema p input
  end.

(** [z.literal(expected)]; [shown] is the JSON text of [expected]. *)
Definition literal {A} (eqb : A -> A -> bool) (expected : A)
           (shown : string) (p : list string) (input : option A)
  : ParseReturn :=
  let bad := INVALID
    {| path := p;
       message := ("Invalid literal value, expected " ++ shown)%string |} in
  match input with
  | Some a => if eqb a expected then OK else bad
  | None => bad
  end.

(** [z.boolean()] on a value that is a boolean or [undefined]. *)
Definition boolean (p : list string) (input : option bool) : ParseReturn :=
  match input with
  | None => INVALID {| path := p; message := "Required" |}
  | Some _ => OK
  end.

(** [schema.default(d)]: [undefined] is replaced by [d] before the
    inner schema runs. *)
Definition default {A} (schema : list string -> option A -> ParseReturn)
           (d : A) (p : list string) (input : option A) : ParseReturn :=
  match input with
  | None => schema p (Some d)
  | Some _ => schema p input
  end.

(** [schema.refine(check, { message, path })] once the inner schema has
    run: nothing is checked after an aborted parse; a failing check
    adds one issue at [p ++ sub] and marks the result dirty. *)
Definition refine (inner : ParseReturn) (check : bool) (msg : string)
           (p sub : list string) : ParseReturn :=
  match status inner with
  | aborted => inner
  | _ =>
      if check then inner
      else {| status := dirty;
              issues := issues inner
                        ++ [{| path := p ++ sub; message := msg |}] |}
  end.

(** [z.object(shape)]: every key of the shape is parsed, in order, at
    path [p ++ [key]]; unknown keys are stripped from the output. *)
Definition object_ {V} (shape : list (string * (list string -> V -> ParseReturn)))
           (p : list string) (input : V) : ParseReturn :=
  let rs := map (fun kv => snd kv (p ++ [fst kv]) input) shape in
  {| status := fold_right mergeStatus valid (map status rs);
     issues := flat_map issues rs |}.

(** [isValid]: a parse succeeds exactly when its status is [valid]. *)
Definition isValid (r : ParseReturn) : bool :=
  match status r with valid => true | _ => false end.

End Zod.

Module RHF.

Import Zod.

(** [FieldErrors]: message per field name. *)
Definition FieldErrors := list (string * string).

Definition joinPath (p : list string) : string := String.concat "." p.

Fixpoint errorFor (name : string) (errs : FieldErrors) : option string :=
  match errs with
  | [] => None
  | (n, m) :: r => if String.eqb n name then Some m else errorFor name r
  end.

(** zodResolver's [parseErrorSchema]: the first issue of each path
    gives the field's error. *)
Fixpoint parseErrorSchema (zodErrors : list ZodIssue) (errors : FieldErrors)
  : FieldErrors :=
  match zodErrors with
  | [] => errors
  | i :: r =>
      let _path := joinPath (path i) in
      match errorFor _path errors with
      | None => parseErrorSchema r (errors ++ [(_path, message i)])
      | Some _ => parseErrorSchema r errors
      end
  end.

(** The part of [useForm]'s object the wizard uses. *)
Record UseForm := {
  values : FormValues;
  defaultValues : FormValues;
  errors : FieldErrors;
  isSubmitted : bool
}.

Definition useForm (defaults : FormValues) : UseForm :=
  {| values := defaults; defaultValues := defaults; errors := [];
     isSubmitted := false |}.

(** [form.reset(v)] makes [v] the values and the new default values and
    clears the errors and the submitted flag; [form.reset()] goes back
    to the default values. *)
Definition reset (v : option FormValues) (f : UseForm) : UseForm :=
  let v' := match v with Some v' => v' | None => defaultValues f end in
  {| values := v'; defaultValues := v'; errors := []; isSubmitted := false |}.

(** [form.handleSubmit(onValid)]: the resolver runs on the current
    values; its data is passed on only when there is no error. *)
Definition handleSubmit (resolver : FormValues -> FormValues + FieldErrors)
           (f : UseForm) : UseForm * option FormValues :=
  match resolver (values f) with
  | inl data =>
      ({| values := values f; defaultValues := defaultValues f;
          errors := []; isSubmitted := true |}, Some data)
  | inr errs =>
      ({| values := values f; defaultValues := defaultValues f;
          errors := errs; isSubmitted := true |}, None)
  end.

(** The field errors a resolver hands to the form (none on success). *)
Definition errorsOf (r : FormValues + FieldErrors) : FieldErrors :=
  match r with
  | inl _ => []
  | inr errs => errs
  end.

(** The errors with the entry of [name] replaced by [e], removed when
    [e] is [None]. *)
Definition setError (name : string) (e : option string) (errs : FieldErrors)
  : FieldErrors :=
  let others := filter (fun nm => negb (String.eqb (fst nm) name)) errs in
  match e with
  | Some m => others ++ [(name, m)]
  | None => others
  end.

(** [field.onChange(x)] of the field [name], [set] storing [x] under
    that key: the value is stored; once the form has been submitted
    (mode [onSubmit], re-validation [onChange]) the resolver runs again
    and the error of that field becomes what it reports for it. *)
Definition onChange (resolver : FormValues -> FormValues + FieldErrors)
           (name : string) (set : FormValues -> FormValues) (f : UseForm)
  : UseForm :=
  let v := set (values f) in
  {| values := v; defaultValues := defaultValues f;
     errors := if isSubmitted f
               then setError name (errorFor name (errorsOf (resolver v)))
                             (errors f)
               else errors f;
     isSubmitted := isSubmitted f |}.

(** [zodResolver(schema)]: [data] is the parsed output of the schema. *)
Definition zodResolver (schema : FormValues -> ParseReturn)
           (data : FormValues -> FormValues) (vals : FormValues)
  : FormValues + FieldErrors :=
  let r := schema vals in
  if isValid r then inl (data vals)
  else inr (parseErrorSchema (issues r) []).

End RHF.

(* ================================================================== *)
(** ** TransferSummary.tsx                                              *)
(* ================================================================== *)

Module TransferSummary.

(** One line of the review: its label and the text shown ([None] for
    an [undefined] value, which React renders as nothing). *)
Record Row := { label : string; shown : option jsstring }.

(** U+2022 BULLET, nine times. *)
Definition bullets : jsstring := repeat 8226%N 9.

(** [accountNumber.slice(0, -4).replace(/./g, '*') +
     accountNumber.slice(-4)] *)
Definition maskedAccountNumber (accountNumber : jsstring) : jsstring :=
  replace_dot_g (slice accountNumber 0 (Some (-4)%Z)) (js "*")
  ++ slice accountNumber (-4) None.

(** [iban.slice(0, 4) + bullets + iban.slice(-4)] *)
Definition maskedIban (iban : jsstring) : jsstring :=
  slice iban 0 (Some 4%Z) ++ bullets ++ slice iban (-4) None.

(** The lines of the summary card, top to bottom, but for the Amount
    line (it is formatted with [parseFloat] and [toFixed], which are
    not modelled).  [None]: rendering throws, the masked field being
    [undefined]. *)
Definition TransferSummary (formData : FormValues) : option (list Row) :=
  let isDomestic :=
    match transferType formData with
    | Some domestic => true
    | _ => false
    end in
  let head :=
    [ {| label := "Transfer Type:";
         shown := Some (js (if isDomestic then "Domestic Transfer"
                            else "International Transfer")) |};
      {| label := "Recipient:"; shown := recipientName formData |};
      {| label := "Bank:"; shown := bankName formData |} ] in
  let variant :=
    if isDomestic then
      match accountNumber formData with
      | Some a =>
          Some [ {| label := "Account Number:";
                    shown := Some (maskedAccountNumber a) |};
                 {| label := "Routing Number:";
                    shown := routingNumber formData |} ]
      | None => None
      end
    else
      match iban formData with
      | Some i =>
          Some [ {| label := "IBAN:"; shown := Some (maskedIban i) |};
                 {| label := "SWIFT/BIC:"; shown := swiftCode formData |};
                 {| label := "Bank Address:";
                    shown := bankAddress formData |};
                 {| label := "Bank Country:";
                    shown := bankCountry formData |} ]
      | None => None
      end in
  let tail :=
    if truthy (description formData)
    then [ {| label := "Description:"; shown := description formData |} ]
    else [] in
  match variant with
  | Some rows => Some (head ++ rows ++ tail)
  | None => None
  end.

End TransferSummary.

(* ================================================================== *)
(** ** TransferForm.tsx, the tabbed domestic / international wizard     *)
(* ================================================================== *)

Module TransferForm.

Import Zod RHF.

Definition Shape := list (string * (list string -> FormValues -> ParseReturn)).

(** [(val) => !isNaN(Number(val)) && Number(val) > 0] *)
Definition amountCheck (val : jsstring) : bool :=
  negb (isNaN (Number val)) && gt_zero (Number val).

(** [z.string().refine(amountCheck, { message })] *)
Definition amountSchema (p : list string) (input : option jsstring)
  : ParseReturn :=
  refine (string_ [] p input)
         (match input with Some val => amountCheck val | None => false end)
         "Amount must be a positive number." p [].

Definition domesticShape : Shape :=
  [ ("transferType", fun p v =>
       literal TransferType_eqb domestic (quote ++ "domestic" ++ quote)
               p (transferType v));
    ("recipientName", fun p v =>
       string_ [min 2 (Some "Name must be at least 2 characters.")]
               p (recipientName v));
    ("accountNumber", fun p v =>
       string_ [min 8 (Some "Account number must be at least 8 characters.")]
               p (accountNumber v));
    ("routingNumber", fun p v =>
       string_ [min 9 (Some "Routing number must be 9 digits."); max 9 None]
               p (routingNumber v));
    ("bankName", fun p v =>
       string_ [min 2 (Some "Bank name is required.")] p (bankName v));
    ("amount", fun p v => amountSchema p (amount v));
    ("description", fun p v => optional (string_ []) p (description v)) ]%string.

Definition internationalShape : Shape :=
  [ ("transferType", fun p v =>
       literal TransferType_eqb international
               (quote ++ "international" ++ quote) p (transferType v));
    ("recipientName", fun p v =>
       string_ [min 2 (Some "Name must be at least 2 characters.")]
               p (recipientName v));
    ("iban", fun p v =>
       string_ [min 15 (Some "IBAN must be at least 15 characters.")]
               p (iban v));
    ("swiftCode", fun p v =>
       string_ [min 8 (Some "SWIFT/BIC code must be at least 8 characters.");
                max 11 None] p (swiftCode v));
    ("bankName", fun p v =>
       string_ [min 2 (Some "Bank name is required.")] p (bankName v));
    ("bankAddress", fun p v =>
       string_ [min 5 (Some "Bank address is required.")] p (bankAddress v));
    ("bankCountry", fun p v =>
       string_ [min 2 (Some "Bank country is required.")] p (bankCountry v));
    ("amount", fun p v => amountSchema p (amount v));
    ("currency", fun p v =>
       string_ [min 3 (Some "Currency code is required.")] p (currency v));
    ("description", fun p v => optional (string_ []) p (description v)) ]%string.

Definition domesticFormSchema (input : FormValues) : ParseReturn :=
  object_ domesticShape [] input.

Definition internationalFormSchema (input : FormValues) : ParseReturn :=
  object_ internationalShape [] input.

(** Parsed output of the two object schemas: the keys of the shape,
    everything else stripped. *)
Definition domesticData (v : FormValues) : FormValues :=
  {| transferType := transferType v; recipientName := recipientName v;
     accountNumber := accountNumber v; routingNumber := routingNumber v;
     bankName := bankName v; amount := amount v;
     description := description v;
     iban := None; swiftCode := None; bankAddress := None;
     bankCountry := None; currency := None;
     useStripe := None; stripeAccountId := None;
     stripePublishableKey := None |}.

Definition internationalData (v : FormValues) : FormValues :=
  {| transferType := transferType v; recipientName := recipientName v;
     accountNumber := None; routingNumber := None;
     bankName := bankName v; amount := amount v;
     description := description v;
     iban := iban v; swiftCode := swiftCode v;
     bankAddress := bankAddress v; bankCountry := bankCountry v;
     currency := currency v;
     useStripe := None; stripeAccountId := None;
     stripePublishableKey := None |}.

Inductive Step := form | summary | success.

Record Toast := {
  title : string;
  toastDescription : jsstring;
  variant : string
}.

(** State of the component: the three [useState] cells, the [useForm]
    object, and what the handlers have handed to the environment: the
    pending [setTimeout] callbacks (each with the [formData] its
    closure captured) and the toasts shown so far. *)
Record State := {
  activeTab : TransferType;
  step : Step;
  formData : option FormValues;
  form_ : UseForm;
  timeouts : list (option FormValues);
  toasts : list Toast
}.

Definition setActiveTab (t : TransferType) (st : State) : State :=
  {| activeTab := t; step := step st; formData := formData st;
     form_ := form_ st; timeouts := timeouts st; toasts := toasts st |}.

Definition setStep (s : Step) (st : State) : State :=
  {| activeTab := activeTab st; step := s; formData := formData st;
     form_ := form_ st; timeouts := timeouts st; toasts := toasts st |}.

Definition setFormData (d : option FormValues) (st : State) : State :=
  {| activeTab := activeTab st; step := step st; formData := d;
     form_ := form_ st; timeouts := timeouts st; toasts := toasts st |}.

Definition setForm (f : UseForm) (st : State) : State :=
  {| activeTab := activeTab st; step := step st; formData := formData st;
     form_ := f; timeouts := timeouts st; toasts := toasts st |}.

(** The object literal shared by [defaultValues] and the tab effect. *)
Definition tabValues (tab : TransferType)
           (recipientName_ amount_ description_ bankName_ : jsstring)
  : FormValues :=
  match tab with
  | domestic =>
      {| transferType := Some tab; recipientName := Some recipientName_;
         amount := Some amount_; description := Some description_;
         accountNumber := Some []; routingNumber := Some [];
         bankName := Some bankName_;
         iban := None; swiftCode := None; bankAddress := None;
         bankCountry := None; currency := None;
         useStripe := None; stripeAccountId := None;
         stripePublishableKey := None |}
  | international =>
      {| transferType := Some tab; recipientName := Some recipientName_;
         amount := Some amount_; description := Some description_;
         accountNumber := None; routingNumber := None;
         iban := Some []; swiftCode := Some [];
         bankName := Some bankName_;
         bankAddress := Some []; bankCountry := Some [];
         currency := Some (js "USD");
         useStripe := None; stripeAccountId := None;
         stripePublishableKey := None |}
  end.

(** The effect with dependencies [activeTab, form]: it runs after the
    mount and after every render in which [activeTab] has changed. *)
Definition tabEffect (st : State) : State :=
  let f := form_ st in
  setForm
    (reset (Some (tabValues (activeTab st)
                            (or_empty (recipientName (values f)))
                            (or_empty (amount (values f)))
                            (or_empty (description (values f)))
                            (or_empty (bankName (values f)))))
           f)
    st.

(** The component after its first render and mount effect. *)
Definition mount : State :=
  tabEffect
    {| activeTab := domestic; step := form; formData := None;
       form_ := useForm (tabValues domestic [] [] [] []);
       timeouts := []; toasts := [] |}.

Definition resolver (tab : TransferType) : FormValues -> FormValues + FieldErrors :=
  match tab with
  | domestic => zodResolver domesticFormSchema domesticData
  | international => zodResolver internationalFormSchema internationalData
  end.

Definition onSubmit (data : FormValues) (st : State) : State :=
  setStep summary (setFormData (Some data) st).

(** [formData?.amount] inside a template literal. *)
Definition amountText (d : option FormValues) : jsstring :=
  match d with
  | Some v => match amount v with Some a => a | None => js "undefined" end
  | None => js "undefined"
  end.

Definition handleConfirmTransfer (st : State) : State :=
  {| activeTab := activeTab st; step := step st; formData := formData st;
     form_ := form_ st;
     timeouts := timeouts st ++ [formData st];
     toasts := toasts st |}.

(** The callback given to [setTimeout], run with the [formData] it
    captured. *)
Definition timeoutCallback (captured : option FormValues) (st : State)
  : State :=
  setStep success
    {| activeTab := activeTab st; step := step st; formData := formData st;
       form_ := form_ st; timeouts := timeouts st;
       toasts := toasts st ++
         [ {| title := "Transfer Successful!";
              toastDescription :=
                js "Your transfer of $" ++ amountText captured
                ++ js " has been initiated.";
              variant := "success" |} ] |}.

Definition handleNewTransfer (st : State) : State :=
  setFormData None (setStep form (setForm (reset None (form_ st)) st)).

Definition handleTabChange (value : TransferType) (st : State) : State :=
  setActiveTab value st.

(** The text fields of the form. *)
Inductive Field :=
| F_recipientName | F_accountNumber | F_routingNumber | F_bankName
| F_amount | F_description | F_iban | F_swiftCode | F_bankAddress
| F_bankCountry | F_currency.

Definition fieldName (f : Field) : string :=
  match f with
  | F_recipientName => "recipientName"
  | F_accountNumber => "accountNumber"
  | F_routingNumber => "routingNumber"
  | F_bankName => "bankName"
  | F_amount => "amount"
  | F_description => "description"
  | F_iban => "iban"
  | F_swiftCode => "swiftCode"
  | F_bankAddress => "bankAddress"
  | F_bankCountry => "bankCountry"
  | F_currency => "currency"
  end.

Definition setValue (f : Field) : jsstring -> FormValues -> FormValues :=
  match f with
  | F_recipientName => with_recipientName
  | F_accountNumber => with_accountNumber
  | F_routingNumber => with_routingNumber
  | F_bankName => with_bankName
  | F_amount => with_amount
  | F_description => with_description
  | F_iban => with_iban
  | F_swiftCode => with_swiftCode
  | F_bankAddress => with_bankAddress
  | F_bankCountry => with_bankCountry
  | F_currency => with_currency
  end.

(** The [FormField]s inside the [TabsContent] of each tab. *)
Definition rendered (tab : TransferType) (f : Field) : bool :=
  match tab, f with
  | _, (F_recipientName | F_bankName | F_amount | F_description) => true
  | domestic, (F_accountNumber | F_routingNumber) => true
  | international,
    (F_iban | F_swiftCode | F_bankAddress | F_bankCountry | F_currency) => true
  | _, _ => false
  end.

(** [e.target.value.replace(/[^0-9.]/g, '')] of the amount inputs. *)
Definition onlyDigitsAndPeriods (text : jsstring) : jsstring :=
  filter (fun c => ((48 <=? c) && (c <=? 57) || (c =? 46))%N) text.

(** What can happen to the mounted component. *)
Inductive Event :=
| Change (f : Field) (text : jsstring) (* the input of a field changes *)
| TabChange (value : TransferType)     (* a tab trigger is chosen *)
| Submit                               (* the form is submitted *)
| Confirm                              (* Confirm Transfer is clicked *)
| Edit                                 (* Edit is clicked *)
| NewTransfer                          (* New Transfer is clicked *)
| Timeout.                             (* the oldest pending timer expires *)

(** An event reaches its handler only when the element that raises it
    is rendered: the tabs and the fields of the active tab in step
    [form], the summary in step [summary] with a [formData], the New
    Transfer button in step [success]. *)
Definition dispatch (e : Event) (st : State) : State :=
  match e, step st with
  | Change f text, form =>
      if rendered (activeTab st) f then
        let value := match f with
                     | F_amount => onlyDigitsAndPeriods text
                     | _ => text
                     end in
        setForm (onChange (resolver (activeTab st)) (fieldName f)
                          (setValue f value) (form_ st))
                st
      else st
  | TabChange value, form =>
      let st' := handleTabChange value st in
      if TransferType_eqb value (activeTab st) then st' else tabEffect st'
  | Submit, form =>
      let '(f, data) := handleSubmit (resolver (activeTab st)) (form_ st) in
      match data with
      | Some d => onSubmit d (setForm f st)
      | None => setForm f st
      end
  | Confirm, summary =>
      match formData st with
      | Some _ => handleConfirmTransfer st
      | None => st
      end
  | Edit, summary =>
      match formData st with
      | Some _ => setStep form st
      | None => st
      end
  | NewTransfer, success => handleNewTransfer st
  | Timeout, _ =>
      match timeouts st with
      | captured :: rest =>
          timeoutCallback captured
            {| activeTab := activeTab st; step := step st;
               formData := formData st; form_ := form_ st;
               timeouts := rest; toasts := toasts st |}
      | [] => st
      end
  | _, _ => st
  end.

Definition run (es : list Event) (st : State) : State :=
  fold_left (fun s e => dispatch e s) es st.

End TransferForm.

(* ================================================================== *)
(** ** src/components/TransferForm.tsx, the Stripe-enabled wizard       *)
(* ================================================================== *)

Module StripeTransferForm.

Import Zod RHF.

Definition Shape := list (string * (list string -> FormValues -> ParseReturn)).

(** [(val) => !isNaN(Number(val)) && Number(val) > 0] *)
Definition amountCheck (val : jsstring) : bool :=
  negb (isNaN (Number val)) && gt_zero (Number val).

Definition amountSchema (p : list string) (input : option jsstring)
  : ParseReturn :=
  refine (string_ [] p input)
         (match input with Some val => amountCheck val | None => false end)
         "Amount must be a positive number." p [].

Definition internationalShape : Shape :=
  [ ("recipientName", fun p v =>
       string_ [min 2 (Some "Name must be at least 2 characters.")]
               p (recipientName v));
    ("iban", fun p v =>
       string_ [min 15 (Some "IBAN must be at least 15 characters.")]
               p (iban v));
    ("swiftCode", fun p v =>
       string_ [min 8 (Some "SWIFT/BIC code must be at least 8 characters.");
                max 11 None] p (swiftCode v));
    ("bankName", fun p v =>
       string_ [min 2 (Some "Bank name is required.")] p (bankName v));
    ("bankAddress", fun p v =>
       string_ [min 5 (Some "Bank address is required.")] p (bankAddress v));
    ("bankCountry", fun p v =>
       string_ [min 2 (Some "Bank country is required.")] p (bankCountry v));
    ("amount", fun p v => amountSchema p (amount v));
    ("currency", fun p v =>
       string_ [min 3 (Some "Currency code is required.")] p (currency v));
    ("description", fun p v => optional (string_ []) p (description v));
    ("useStripe", fun p v => default boolean false p (useStripe v));
    ("stripeAccountId", fun p v =>
       optional (string_ []) p (stripeAccountId v));
    ("stripePublishableKey", fun p v =>
       optional (string_ []) p (stripePublishableKey v)) ]%string.

(** Parsed output of the object: the keys of the shape, [useStripe]
    with its default applied. *)
Definition internationalData (v : FormValues) : FormValues :=
  {| transferType := None; recipientName := recipientName v;
     accountNumber := None; routingNumber := None;
     bankName := bankName v; amount := amount v;
     description := description v;
     iban := iban v; swiftCode := swiftCode v;
     bankAddress := bankAddress v; bankCountry := bankCountry v;
     currency := currency v;
     useStripe := Some (match useStripe v with Some b => b | None => false end);
     stripeAccountId := stripeAccountId v;
     stripePublishableKey := stripePublishableKey v |}.

(** [if (data.useStripe && (!data.x || data.x.length < n)) return false;
     return true;] *)
Definition stripeFieldCheck (n : nat) (useStripe_ : option bool)
           (x : option jsstring) : bool :=
  if match useStripe_ with Some b => b | None => false end
     && (negb (truthy x)
         || match x with Some s => length s <? n | None => false end)
  then false else true.

Definition internationalFormSchema (input : FormValues) : ParseReturn :=
  let data := internationalData input in
  refine
    (refine (object_ internationalShape [] input)
            (stripeFieldCheck 3 (useStripe data) (stripeAccountId data))
            "Stripe Account ID is required when using Stripe."
            [] ["stripeAccountId"%string])
    (stripeFieldCheck 10 (useStripe data) (stripePublishableKey data))
    "Stripe Publishable Key is required when using Stripe."
    [] ["stripePublishableKey"%string].

Definition resolver : FormValues -> FormValues + FieldErrors :=
  zodResolver internationalFormSchema internationalData.

(** [defaultValues] of [useForm]. *)
Definition defaultValues : FormValues :=
  {| transferType := None; recipientName := Some [];
     accountNumber := None; routingNumber := None;
     bankName := Some []; amount := Some []; description := Some [];
     iban := Some []; swiftCode := Some []; bankAddress := Some [];
     bankCountry := Some []; currency := Some (js "USD");
     useStripe := Some false; stripeAccountId := Some [];
     stripePublishableKey := Some [] |}.

End StripeTransferForm.

(* ================================================================== *)
(** ** The field rules of the specification, and scenario data          *)
(* ================================================================== *)

(** The constraints of the data model, field by field, as the
    specification words them; they are compared with the schemas
    below. *)
Module Rules.

(** "min length n": the field is present and has at least [n]
    characters. *)
Definition minLength (n : nat) (x : option jsstring) : bool :=
  match x with
  | Some s => n <=? length s
  | None => false
  end.

(** "length lo-hi". *)
Definition lengthBetween (lo hi : nat) (x : option jsstring) : bool :=
  match x with
  | Some s => (lo <=? length s) && (length s <=? hi)
  | None => false
  end.

(** "exactly n characters". *)
Definition exactLength (n : nat) (x : option jsstring) : bool :=
  match x with
  | Some s => length s =? n
  | None => false
  end.

(** "parses as a number strictly greater than zero". *)
Definition positiveNumber (x : option jsstring) : bool :=
  match x with
  | Some s =>
      match Number s with
      | NaN => false
      | n => gt_zero n
      end
  | None => false
  end.

Definition isVariant (t : TransferType) (x : option TransferType) : bool :=
  match x with
  | Some t' => TransferType_eqb t' t
  | None => false
  end.

(** The fields of a variant with their rules; [description] is
    optional and unconstrained. *)
Definition fieldRules (t : TransferType)
  : list (string * (FormValues -> bool)) :=
  match t with
  | domestic =>
      [ ("transferType", fun v => isVariant domestic (transferType v));
        ("recipientName", fun v => minLength 2 (recipientName v));
        ("accountNumber", fun v => minLength 8 (accountNumber v));
        ("routingNumber", fun v => exactLength 9 (routingNumber v));
        ("bankName", fun v => minLength 2 (bankName v));
        ("amount", fun v => positiveNumber (amount v));
        ("description", fun _ => true) ]%string
  | international =>
      [ ("transferType", fun v => isVariant international (transferType v));
        ("recipientName", fun v => minLength 2 (recipientName v));
        ("iban", fun v => minLength 15 (iban v));
        ("swiftCode", fun v => lengthBetween 8 11 (swiftCode v));
        ("bankName", fun v => minLength 2 (bankName v));
        ("bankAddress", fun v => minLength 5 (bankAddress v));
        ("bankCountry", fun v => minLength 2 (bankCountry v));
        ("amount", fun v => positiveNumber (amount v));
        ("currency", fun v => minLength 3 (currency v));
        ("description", fun _ => true) ]%string
  end.

(** Every field of the variant satisfies its rule. *)
Definition wellFormed (t : TransferType) (v : FormValues) : bool :=
  forallb (fun r => snd r v) (fieldRules t).

(** The draft carries the fields of variant [t] only, as a value of
    the type [TransferFormValues] does and as the tab effect leaves
    the form. *)
Definition draftOf (t : TransferType) (v : FormValues) : bool :=
  let absent {A} (x : option A) := match x with None => true | _ => false end in
  absent (useStripe v) && absent (stripeAccountId v)
  && absent (stripePublishableKey v)
  && match t with
     | domestic =>
         absent (iban v) && absent (swiftCode v) && absent (bankAddress v)
         && absent (bankCountry v) && absent (currency v)
     | international =>
         absent (accountNumber v) && absent (routingNumber v)
     end.

(** "useStripe true"; the default is false. *)
Definition usesStripe (v : FormValues) : bool :=
  match useStripe v with
  | Some b => b
  | None => false
  end.

(** Every required non-Stripe field of the Stripe-enabled form holds
    a string. *)
Definition present (v : FormValues) : bool :=
  let given {A} (x : option A) := match x with Some _ => true | None => false end in
  given (recipientName v) && given (iban v) && given (swiftCode v)
  && given (bankName v) && given (bankAddress v) && given (bankCountry v)
  && given (amount v) && given (currency v).

(** The keys of the Stripe-enabled form with the rules the object
    schema itself puts on them: those of the non-Stripe fields; the
    three Stripe keys are unconstrained there, their rules being the
    cross-field ones. *)
Definition stripeBaseRules : list (string * (FormValues -> bool)) :=
  [ ("recipientName", fun v => minLength 2 (recipientName v));
    ("iban", fun v => minLength 15 (iban v));
    ("swiftCode", fun v => lengthBetween 8 11 (swiftCode v));
    ("bankName", fun v => minLength 2 (bankName v));
    ("bankAddress", fun v => minLength 5 (bankAddress v));
    ("bankCountry", fun v => minLength 2 (bankCountry v));
    ("amount", fun v => positiveNumber (amount v));
    ("currency", fun v => minLength 3 (currency v));
    ("description", fun _ => true);
    ("useStripe", fun _ => true);
    ("stripeAccountId", fun _ => true);
    ("stripePublishableKey", fun _ => true) ]%string.

End Rules.

(** An issue reported at the path that names field [name]. *)
Definition at_ (name : string) (i : Zod.ZodIssue) : bool :=
  String.eqb (RHF.joinPath (Zod.path i)) name.

(** What a field's schema must do at key [key] to implement the rule
    whose verdict is [ok]: report at the field's own path only, accept
    without issue when the rule holds, and otherwise fail with a first
    issue whose message is not empty. *)
Definition fieldSpec (r : Zod.ParseReturn) (key : string) (ok : bool) : Prop :=
  Forall (fun i => Zod.path i = [key]) (Zod.issues r)
  /\ if ok then r = Zod.OK
     else Zod.status r <> Zod.valid
          /\ exists i rest, Zod.issues r = i :: rest
                            /\ Zod.message i <> ""%string.

(** A shape implements a list of rules on the values [v] when, key by
    key and in the same order, each field schema implements its rule. *)
Definition implements (v : FormValues)
           (shape : list (string * (list string -> FormValues -> Zod.ParseReturn)))
           (rules : list (string * (FormValues -> bool))) : Prop :=
  Forall2 (fun kv kr =>
             fst kv = fst kr
             /\ fieldSpec (snd kv [fst kv] v) (fst kv) (snd kr v))
          shape rules.

(** The domestic draft of the specification's scenario. *)
Definition johnDoe : FormValues :=
  {| transferType := Some domestic;
     recipientName := Some (js "John Doe");
     accountNumber := Some (js "1234567890");
     routingNumber := Some (js "123456789");
     bankName := Some (js "Bank A");
     amount := Some (js "250.00");
     description := None;
     iban := None; swiftCode := None; bankAddress := None;
     bankCountry := None; currency := None;
     useStripe := None; stripeAccountId := None;
     stripePublishableKey := None |}.

(** The scenario's draft typed into the mounted form, field by field. *)
Definition typingJohnDoe : list TransferForm.Event :=
  [ TransferForm.Change TransferForm.F_recipientName (js "John Doe");
    TransferForm.Change TransferForm.F_accountNumber (js "1234567890");
    TransferForm.Change TransferForm.F_routingNumber (js "123456789");
    TransferForm.Change TransferForm.F_bankName (js "Bank A");
    TransferForm.Change TransferForm.F_amount (js "250.00") ].

(** The wizard on tab [tab], in step [form], holding the values [v]. *)
Definition editing (tab : TransferType) (v : FormValues) : TransferForm.State :=
  {| TransferForm.activeTab := tab;
     TransferForm.step := TransferForm.form;
     TransferForm.formData := None;
     TransferForm.form_ :=
       {| RHF.values := v;
          RHF.defaultValues := TransferForm.tabValues tab [] [] [] [];
          RHF.errors := [];
          RHF.isSubmitted := false |};
     TransferForm.timeouts := [];
     TransferForm.toasts := [] |}.

(** A draft of the Stripe-enabled form whose non-Stripe fields are
    valid, with the given Stripe fields. *)
Definition janeSmith (useStripe_ : bool) (accountId key : jsstring)
  : FormValues :=
  {| transferType := None;
     recipientName := Some (js "Jane Smith");
     accountNumber := None; routingNumber := None;
     bankName := Some (js "HSBC");
     amount := Some (js "1000.00");
     description := Some (js "Invoice payment");
     iban := Some (js "GB29NWBK60161331926819");
     swiftCode := Some (js "HSBCGB2L");
     bankAddress := Some (js "8 Canada Square, London");
     bankCountry := Some (js "United Kingdom");
     currency := Some (js "GBP");
     useStripe := Some useStripe_;
     stripeAccountId := Some accountId;
     stripePublishableKey := Some key |}.

(** The errors the specification expects from the Stripe rules: one per
    violated Stripe field, at that field, when [useStripe] is true. *)
Definition stripeErrors (v : FormValues) : RHF.FieldErrors :=
  (if Rules.usesStripe v && negb (Rules.minLength 3 (stripeAccountId v))
   then [("stripeAccountId"%string,
          "Stripe Account ID is required when using Stripe."%string)]
   else [])
  ++ (if Rules.usesStripe v
         && negb (Rules.minLength 10 (stripePublishableKey v))
      then [("stripePublishableKey"%string,
             "Stripe Publishable Key is required when using Stripe."%string)]
      else []).



(* ================================================================== *)
(** ** The wizard of src/components/TransferForm.tsx                    *)
(* ================================================================== *)

(** [{ ...v, useStripe: b }] *)
Definition with_useStripe (b : bool) (v : FormValues) : FormValues :=
  {| transferType := transferType v; recipientName := recipientName v;
     accountNumber := accountNumber v; routingNumber := routingNumber v;
     bankName := bankName v; amount := amount v;
     description := description v; iban := iban v;
     swiftCode := swiftCode v; bankAddress := bankAddress v;
     bankCountry := bankCountry v; currency := currency v;
     useStripe := Some b; stripeAccountId := stripeAccountId v;
     stripePublishableKey := stripePublishableKey v |}.

Module StripeWizard.

Import Zod RHF.

(** State of the component: the two [useState] cells ([step] has the
    three values of [TransferForm.Step]), the [useForm] object, the
    pending [setTimeout] callbacks and the toasts shown so far. *)
Record State := {
  step : TransferForm.Step;
  formData : option FormValues;
  form_ : UseForm;
  timeouts : list (option FormValues);
  toasts : list TransferForm.Toast
}.

Definition setStep (s : TransferForm.Step) (st : State) : State :=
  {| step := s; formData := formData st; form_ := form_ st;
     timeouts := timeouts st; toasts := toasts st |}.

Definition setFormData (d : option FormValues) (st : State) : State :=
  {| step := step st; formData := d; form_ := form_ st;
     timeouts := timeouts st; toasts := toasts st |}.

Definition setForm (f : UseForm) (st : State) : State :=
  {| step := step st; formData := formData st; form_ := f;
     timeouts := timeouts st; toasts := toasts st |}.

(** The component after its first render. *)
Definition mount : State :=
  {| step := TransferForm.form; formData := None;
     form_ := useForm StripeTransferForm.defaultValues;
     timeouts := []; toasts := [] |}.

Definition onSubmit (data : FormValues) (st : State) : State :=
  setStep TransferForm.summary (setFormData (Some data) st).

Definition handleConfirmTransfer (st : State) : State :=
  {| step := step st; formData := formData st; form_ := form_ st;
     timeouts := timeouts st ++ [formData st];
     toasts := toasts st |}.

(** The callback given to [setTimeout], run with the [formData] it
    captured. *)
Definition timeoutCallback (captured : option FormValues) (st : State)
  : State :=
  setStep TransferForm.success
    {| step := step st; formData := formData st; form_ := form_ st;
       timeouts := timeouts st;
       toasts := toasts st ++
         [ {| TransferForm.title := "Transfer Successful!";
              TransferForm.toastDescription :=
                js "Your transfer of $" ++ TransferForm.amountText captured
                ++ js " has been initiated.";
              TransferForm.variant := "default" |} ] |}.

Definition handleNewTransfer (st : State) : State :=
  setFormData None
    (setStep TransferForm.form (setForm (reset None (form_ st)) st)).

(** The text fields of the form. *)
Inductive Field :=
| F_recipientName | F_iban | F_swiftCode | F_bankName | F_bankAddress
| F_bankCountry | F_amount | F_currency | F_description
| F_stripeAccountId | F_stripePublishableKey.

Definition fieldName (f : Field) : string :=
  match f with
  | F_recipientName => "recipientName"
  | F_iban => "iban"
  | F_swiftCode => "swiftCode"
  | F_bankName => "bankName"
  | F_bankAddress => "bankAddress"
  | F_bankCountry => "bankCountry"
  | F_amount => "amount"
  | F_currency => "currency"
  | F_description => "description"
  | F_stripeAccountId => "stripeAccountId"
  | F_stripePublishableKey => "stripePublishableKey"
  end.

Definition setValue (f : Field) : jsstring -> FormValues -> FormValues :=
  match f with
  | F_recipientName => with_recipientName
  | F_iban => with_iban
  | F_swiftCode => with_swiftCode
  | F_bankName => with_bankName
  | F_bankAddress => with_bankAddress
  | F_bankCountry => with_bankCountry
  | F_amount => with_amount
  | F_currency => with_currency
  | F_description => with_description
  | F_stripeAccountId => with_stripeAccountId
  | F_stripePublishableKey => with_stripePublishableKey
  end.

(** [form.watch("useStripe")] as the condition of [{useStripe && ...}]. *)
Definition watchUseStripe (st : State) : bool :=
  match useStripe (values (form_ st)) with
  | Some b => b
  | None => false
  end.

(** The two Stripe inputs are rendered only while [useStripe] is
    checked; the other fields always are. *)
Definition rendered (st : State) (f : Field) : bool :=
  match f with
  | F_stripeAccountId | F_stripePublishableKey => watchUseStripe st
  | _ => true
  end.

(** What can happen to the mounted component. *)
Inductive Event :=
| Change (f : Field) (text : jsstring) (* the input of a field changes *)
| CheckedChange (checked : bool)       (* the checkbox is toggled *)
| Submit                               (* the form is submitted *)
| Confirm                              (* Confirm Transfer is clicked *)
| Edit                                 (* Edit is clicked *)
| NewTransfer                          (* New Transfer is clicked *)
| Timeout.                             (* the oldest pending timer expires *)

(** An event reaches its handler only when the element that raises it
    is rendered. *)
Definition dispatch (e : Event) (st : State) : State :=
  match e, step st with
  | Change f text, TransferForm.form =>
      if rendered st f then
        let value := match f with
                     | F_amount => TransferForm.onlyDigitsAndPeriods text
                     | _ => text
                     end in
        setForm (onChange StripeTransferForm.resolver (fieldName f)
                          (setValue f value) (form_ st))
                st
      else st
  | CheckedChange checked, TransferForm.form =>
      setForm (onChange StripeTransferForm.resolver "useStripe"
                        (with_useStripe checked) (form_ st))
              st
  | Submit, TransferForm.form =>
      let '(f, data) := handleSubmit StripeTransferForm.resolver (form_ st) in
      match data with
      | Some d => onSubmit d (setForm f st)
      | None => setForm f st
      end
  | Confirm, TransferForm.summary =>
      match formData st with
      | Some _ => handleConfirmTransfer st
      | None => st
      end
  | Edit, TransferForm.summary =>
      match formData st with
      | Some _ => setStep TransferForm.form st
      | None => st
      end
  | NewTransfer, TransferForm.success => handleNewTransfer st
  | Timeout, _ =>
      match timeouts st with
      | captured :: rest =>
          timeoutCallback captured
            {| step := step st; formData := formData st;
               form_ := form_ st; timeouts := rest; toasts := toasts st |}
      | [] => st
      end
  | _, _ => st
  end.

Definition run (es : list Event) (st : State) : State :=
  fold_left (fun s e => dispatch e s) es st.

End StripeWizard.

(* ================================================================== *)
(** ** The transfer service (createTransfer)                            *)
(* ================================================================== *)

Module TransferService.

(** Decimal digits of [n], most significant first, in front of [acc];
    [fuel] bounds the number of digits. *)
Fixpoint toDigits (fuel : nat) (n : N) (acc : jsstring) : jsstring :=
  match fuel with
  | O => acc
  | S fuel' =>
      let acc' := (48 + n mod 10)%N :: acc in
      if (n / 10 =? 0)%N then acc' else toDigits fuel' (n / 10) acc'
  end.

(** [n.toString()] of a non-negative integer below 10^21 (from there on
    JavaScript prints an exponent). *)
Definition toString (n : N) : jsstring := toDigits 21 n [].

(** [s.padStart(targetLength, padString)] *)
Definition padStart (s : jsstring) (targetLength : nat) (padString : jsstring)
  : jsstring :=
  let fillLen := targetLength - length s in
  match padString with
  | [] => s
  | _ => firstn fillLen (concat (repeat padString fillLen)) ++ s
  end.

(** The value [createTransfer] resolves with, [draw] being
    [Math.floor(Math.random() * 1000000)]. *)
Record TransferResult := { success : bool; id : jsstring }.

Definition createTransfer (draw : N) : TransferResult :=
  {| success := true;
     id := js "TXN" ++ padStart (toString draw) 6 (js "0") |}.

End TransferService.

(* ================================================================== *)
(** ** Predicates on form values and runs                               *)
(* ================================================================== *)

(** A decimal digit or a period. *)
Definition isDigitOrPeriod (c : codeunit) : bool :=
  ((48 <=? c) && (c <=? 57) || (c =? 46))%N.

Definition isDecimalDigit (c : codeunit) : bool :=
  ((48 <=? c) && (c <=? 57))%N.

(** The key holds a value. *)
Definition given {A} (x : option A) : bool :=
  match x with
  | Some _ => true
  | None => false
  end.

(** Every text field of variant [t] holds a string. *)
Definition presentFor (t : TransferType) (v : FormValues) : bool :=
  given (recipientName v) && given (bankName v) && given (amount v)
  && given (description v)
  && match t with
     | domestic => given (accountNumber v) && given (routingNumber v)
     | international =>
         given (iban v) && given (swiftCode v) && given (bankAddress v)
         && given (bankCountry v) && given (currency v)
     end.

(** The amount holds a string of digits and periods. *)
Definition amountClean (v : FormValues) : bool :=
  match amount v with
  | Some s => forallb isDigitOrPeriod s
  | None => false
  end.

(** The values are a draft the tabbed form can hold on tab [t]. *)
Definition formShaped (t : TransferType) (v : FormValues) : bool :=
  Rules.isVariant t (transferType v) && presentFor t v && Rules.draftOf t v
  && amountClean v.

(** A committed draft: well-formed for the variant it names, with the
    keys of that variant only. *)
Definition committed (d : FormValues) : bool :=
  match transferType d with
  | Some t => Rules.wellFormed t d && Rules.draftOf t d
  | None => false
  end.

(** What every state the tabbed wizard reaches satisfies. *)
Definition tabbedInvariant (st : TransferForm.State) : Prop :=
  formShaped (TransferForm.activeTab st)
             (RHF.values (TransferForm.form_ st)) = true
  /\ formShaped (TransferForm.activeTab st)
                (RHF.defaultValues (TransferForm.form_ st)) = true
  /\ (RHF.isSubmitted (TransferForm.form_ st) = false ->
      RHF.errors (TransferForm.form_ st) = [])
  /\ (TransferForm.step st = TransferForm.summary ->
      TransferForm.formData st <> None)
  /\ (forall d, TransferForm.formData st = Some d -> committed d = true).

(** No tab trigger is chosen during the run. *)
Definition noTabChange (es : list TransferForm.Event) : bool :=
  forallb (fun e => match e with
                    | TransferForm.TabChange _ => false
                    | _ => true
                    end) es.

(** Every key of the Stripe-enabled form holds a value, and no other
    key does. *)
Definition stripeShaped (v : FormValues) : bool :=
  Rules.present v && given (description v) && given (useStripe v)
  && given (stripeAccountId v) && given (stripePublishableKey v)
  && negb (given (transferType v)) && negb (given (accountNumber v))
  && negb (given (routingNumber v)).

(** What every state the Stripe-enabled wizard reaches satisfies. *)
Definition stripeInvariant (st : StripeWizard.State) : Prop :=
  stripeShaped (RHF.values (StripeWizard.form_ st)) = true
  /\ RHF.defaultValues (StripeWizard.form_ st)
     = StripeTransferForm.defaultValues
  /\ (StripeWizard.step st = TransferForm.summary ->
      StripeWizard.formData st <> None)
  /\ (forall d, StripeWizard.formData st = Some d ->
                stripeShaped d = true
                /\ StripeTransferForm.resolver d = inl d).

(** The sentence of the success step of the tabbed wizard,
    [Your transfer of ${formData?.amount} {activeTab === "international"
    ? `(${(formData as any).currency})` : ""} has been successfully
    initiated.]  An undefined amount renders as nothing, an undefined
    currency as the text [undefined] of the template literal.  [None]:
    rendering throws, [currency] being read from a null [formData]. *)
Definition successSentence (st : TransferForm.State) : option jsstring :=
  let amountShown :=
    match TransferForm.formData st with
    | Some d => match amount d with Some a => a | None => [] end
    | None => []
    end in
  let sentence (currencyShown : jsstring) :=
    js "Your transfer of $" ++ amountShown ++ js " " ++ currencyShown
    ++ js " has been successfully initiated." in
  match TransferForm.activeTab st with
  | international =>
      match TransferForm.formData st with
      | Some d =>
          Some (sentence
                  (js "("
                   ++ match currency d with
                      | Some c => c
                      | None => js "undefined"
                      end
                   ++ js ")"))
      | None => None
      end
  | domestic => Some (sentence [])
  end.

(** A typing session on the Stripe-enabled form that ends with a valid
    draft using Stripe. *)
Definition typingJaneSmith : list StripeWizard.Event :=
  [ StripeWizard.Change StripeWizard.F_recipientName (js "Jane Smith");
    StripeWizard.Change StripeWizard.F_iban (js "GB29NWBK60161331926819");
    StripeWizard.Change StripeWizard.F_swiftCode (js "HSBCGB2L");
    StripeWizard.Change StripeWizard.F_bankName (js "HSBC");
    StripeWizard.Change StripeWizard.F_bankAddress
                        (js "8 Canada Square, London");
    StripeWizard.Change StripeWizard.F_bankCountry (js "United Kingdom");
    StripeWizard.Change StripeWizard.F_amount (js "1000.00");
    StripeWizard.CheckedChange true;
    StripeWizard.Change StripeWizard.F_stripeAccountId (js "acct_1234");
    StripeWizard.Change StripeWizard.F_stripePublishableKey
                        (js "pk_test_0123456789") ].


(* ================================================================== *)
(** * Properties                                                        *)
(* ================================================================== *)

(** ** Strings *)

Section SliceFacts.

Variable s : jsstring.

Lemma slice_all_but_last4 :
  slice s 0 (Some (-4)%Z) = firstn (length s - 4) s.
Proof.
  unfold slice, relative_index. cbn [Z.ltb Z.compare].
  rewrite Z.min_l by lia. cbn [Z.to_nat skipn].
  f_equal. lia.
Qed.

Lemma slice_last4 : slice s (-4) None = skipn (length s - 4) s.
Proof.
  unfold slice, relative_index. cbn [Z.ltb Z.compare].
  replace (Z.to_nat (Z.max (Z.of_nat (length s) + -4) 0))
    with (length s - 4) by lia.
  apply firstn_all2. rewrite length_skipn. lia.
Qed.

Lemma slice_first4 : slice s 0 (Some 4%Z) = firstn 4 s.
Proof.
  unfold slice, relative_index. cbn [Z.ltb Z.compare].
  rewrite (Z.min_l 0) by lia. cbn [Z.to_nat skipn].
  destruct (Nat.le_gt_cases 4 (length s)) as [Hlen | Hlen].
  - f_equal. lia.
  - rewrite !firstn_all2 by lia. reflexivity.
Qed.

End SliceFacts.

Lemma replace_dot_g_length (s : jsstring) (c : codeunit) :
  length (replace_dot_g s [c]) = length s.
Proof.
  induction s as [| x s IH]; [reflexivity |].
  unfold replace_dot_g in *. cbn [flat_map].
  rewrite length_app, IH. destruct (isLineTerminator x); reflexivity.
Qed.


(** ** Summary masking *)

Import TransferSummary.

Lemma maskedAccountNumber_eq (a : jsstring) :
  maskedAccountNumber a
  = replace_dot_g (firstn (length a - 4) a) (js "*") ++ skipn (length a - 4) a.
Proof.
  unfold maskedAccountNumber.
  now rewrite slice_all_but_last4, slice_last4.
Qed.

Lemma maskedAccountNumber_length (a : jsstring) :
  length (maskedAccountNumber a) = length a.
Proof.
  rewrite maskedAccountNumber_eq, length_app.
  change (js "*") with [42%N].
  rewrite replace_dot_g_length, length_firstn, length_skipn. lia.
Qed.

Lemma maskedIban_eq (i : jsstring) :
  maskedIban i = firstn 4 i ++ bullets ++ skipn (length i - 4) i.
Proof.
  unfold maskedIban. now rewrite slice_first4, slice_last4.
Qed.

(** The row of the summary that carries the account number. *)
Lemma TransferSummary_account_row (formData : FormValues) (a : jsstring) :
  transferType formData = Some domestic ->
  accountNumber formData = Some a ->
  exists rows,
    TransferSummary formData = Some rows /\
    In {| label := "Account Number:"; shown := Some (maskedAccountNumber a) |}
       rows.
Proof.
  intros Ht Ha. unfold TransferSummary. rewrite Ht, Ha.
  eexists. split; [reflexivity |].
  cbn [app In]. tauto.
Qed.




(** C7, the claim as stated fails: the three characters of the account
    number ["123"] are all shown verbatim, none is masked. *)
Lemma short_account_number_not_masked :
  maskedAccountNumber (js "123") = js "123"
  /\ maskedAccountNumber (js "123") <> repeat 42%N 3.
Proof.
  split; [reflexivity | vm_compute; discriminate].
Qed.

(** C7 (amended): if the committed account number has fewer than 4
    characters, nothing is masked: the summary's Account Number line
    shows the account number itself, verbatim. *)
Theorem short_account_number_shown_verbatim
        (formData : FormValues) (a : jsstring) :
  transferType formData = Some domestic ->
  accountNumber formData = Some a ->
  length a < 4 ->
  maskedAccountNumber a = a
  /\ exists rows,
      TransferSummary formData = Some rows /\
      In {| label := "Account Number:"; shown := Some a |} rows.
Proof.
  intros Ht Ha Hlen.
  assert (Hm : maskedAccountNumber a = a).
  { rewrite maskedAccountNumber_eq.
    replace (length a - 4) with 0 by lia. reflexivity. }
  split; [exact Hm |].
  destruct (TransferSummary_account_row formData a Ht Ha) as (rows & Hr & Hin).
  exists rows. rewrite Hm in Hin. split; assumption.
Qed.

Lemma short_account_number_shown_verbatim_witness :
  maskedAccountNumber (js "123") = js "123"
  /\ exists rows,
      TransferSummary
        {| transferType := Some domestic; recipientName := None;
           accountNumber := Some (js "123"); routingNumber := None;
           bankName := None; amount := None; description := None;
           iban := None; swiftCode := None; bankAddress := None;
           bankCountry := None; currency := None; useStripe := None;
           stripeAccountId := None; stripePublishableKey := None |}
      = Some rows /\
      In {| label := "Account Number:"; shown := Some (js "123") |} rows.
Proof.
  apply short_account_number_shown_verbatim;
    [reflexivity | reflexivity | vm_compute; lia].
Defined.

(** C8: for every account number of length at least 4 the last 4
    characters of the masked account number are the last 4 characters of
    the original; for every IBAN of length at least 15 the first 4 and
    the last 4 characters of the masked IBAN are those of the original,
    and the masked IBAN is its first 4 characters, the mask token and
    its last 4 characters, the token being nine bullets whatever the
    length of the IBAN (the masked IBAN always has 17 characters). *)
Theorem masking_keeps_visible_ends (a i : jsstring) :
  4 <= length a ->
  15 <= length i ->
  slice (maskedAccountNumber a) (-4) None = slice a (-4) None
  /\ length (slice a (-4) None) = 4
  /\ slice (maskedIban i) 0 (Some 4%Z) = slice i 0 (Some 4%Z)
  /\ slice (maskedIban i) (-4) None = slice i (-4) None
  /\ maskedIban i = slice i 0 (Some 4%Z) ++ bullets ++ slice i (-4) None
  /\ length (slice i 0 (Some 4%Z)) = 4
  /\ length (slice i (-4) None) = 4
  /\ length bullets = 9
  /\ length (maskedIban i) = 17.
Proof.
  intros Ha Hi.
  assert (Hf : length (firstn 4 i) = 4) by (rewrite length_firstn; lia).
  assert (Hl : length (skipn (length i - 4) i) = 4)
    by (rewrite length_skipn; lia).
  assert (Hmi : length (maskedIban i) = 17).
  { rewrite maskedIban_eq, !length_app, Hf, Hl. reflexivity. }
  repeat split.
  - rewrite (slice_last4 (maskedAccountNumber a)), (slice_last4 a).
    rewrite maskedAccountNumber_length.
    rewrite maskedAccountNumber_eq.
    rewrite skipn_app.
    change (js "*") with [42%N].
    rewrite replace_dot_g_length, length_firstn.
    replace (Nat.min (length a - 4) (length a)) with (length a - 4) by lia.
    rewrite Nat.sub_diag, skipn_O.
    rewrite skipn_all2; [reflexivity |].
    rewrite replace_dot_g_length, length_firstn. lia.
  - rewrite slice_last4, length_skipn. lia.
  - rewrite !slice_first4, maskedIban_eq.
    rewrite firstn_app, Hf, Nat.sub_diag, firstn_O, app_nil_r.
    apply firstn_all2. lia.
  - rewrite (slice_last4 (maskedIban i)), (slice_last4 i), Hmi.
    rewrite maskedIban_eq.
    change (17 - 4) with (9 + 4).
    rewrite <- skipn_skipn.
    rewrite skipn_app, Hf, Nat.sub_diag.
    rewrite (skipn_all2 (firstn 4 i)) by lia.
    reflexivity.
  - rewrite slice_first4. exact Hf.
  - rewrite slice_last4. exact Hl.
  - exact Hmi.
Qed.

Lemma masking_keeps_visible_ends_witness :
  slice (maskedAccountNumber (js "1234567890")) (-4) None = js "7890"
  /\ slice (maskedIban (js "GB29NWBK60161331926819")) 0 (Some 4%Z) = js "GB29"
  /\ slice (maskedIban (js "GB29NWBK60161331926819")) (-4) None = js "6819".
Proof.
  destruct (masking_keeps_visible_ends (js "1234567890")
                                       (js "GB29NWBK60161331926819"))
    as (H1 & _ & H2 & H3 & _); [vm_compute; lia | vm_compute; lia |].
  rewrite H1, H2, H3. repeat split.
Defined.

(** ** Field errors of an object schema *)

Import Zod RHF.

Lemma joinPath_singleton (k : string) : joinPath [k] = k.
Proof. reflexivity. Qed.

Lemma errorFor_app (name n m : string) (errs : FieldErrors) :
  errorFor name (errs ++ [(n, m)])
  = match errorFor name errs with
    | Some x => Some x
    | None => if String.eqb n name then Some m else None
    end.
Proof.
  induction errs as [| [n' m'] errs IH]; cbn [app errorFor]; [reflexivity |].
  destruct (String.eqb n' name); [reflexivity | exact IH].
Qed.

(** The error of a field is the message of the first issue reported at
    its path. *)
Lemma errorFor_parseErrorSchema (zodErrors : list ZodIssue) :
  forall (errs : FieldErrors) (name : string),
    errorFor name (parseErrorSchema zodErrors errs)
    = match errorFor name errs with
      | Some m => Some m
      | None => option_map message (find (at_ name) zodErrors)
      end.
Proof.
  induction zodErrors as [| i r IH]; intros errs name; cbn [parseErrorSchema find].
  - destruct (errorFor name errs); reflexivity.
  - unfold at_ at 1.
    destruct (errorFor (joinPath (path i)) errs) as [m |] eqn:Hi.
    + rewrite IH. destruct (errorFor name errs) as [m' |] eqn:Hn; [reflexivity |].
      destruct (String.eqb (joinPath (path i)) name) eqn:E; [| reflexivity].
      apply String.eqb_eq in E. congruence.
    + rewrite IH, errorFor_app.
      destruct (errorFor name errs); [reflexivity |].
      destruct (String.eqb (joinPath (path i)) name); reflexivity.
Qed.

Lemma find_located_other (name key : string) (l : list ZodIssue) :
  Forall (fun i => path i = [key]) l -> key <> name ->
  find (at_ name) l = None.
Proof.
  intros Hl Hne. induction Hl as [| i l Hi _ IH]; [reflexivity |].
  cbn [find]. unfold at_ at 1. rewrite Hi, joinPath_singleton.
  apply String.eqb_neq in Hne. rewrite Hne. exact IH.
Qed.

Lemma find_app (f : ZodIssue -> bool) (l1 l2 : list ZodIssue) :
  find f (l1 ++ l2)
  = match find f l1 with Some x => Some x | None => find f l2 end.
Proof.
  induction l1 as [| x l1 IH]; [reflexivity |].
  cbn [app find]. destruct (f x); [reflexivity | exact IH].
Qed.

Section ObjectSchema.

Variable v : FormValues.

Lemma object_cons key f shape :
  object_ ((key, f) :: shape) [] v
  = {| status := mergeStatus (status (f [key] v))
                             (status (object_ shape [] v));
       issues := issues (f [key] v) ++ issues (object_ shape [] v) |}.
Proof. reflexivity. Qed.

Lemma object_status shape rules :
  implements v shape rules ->
  (forallb (fun r => snd r v) rules = true ->
   object_ shape [] v = OK)
  /\ (forallb (fun r => snd r v) rules = false ->
      status (object_ shape [] v) <> valid).
Proof.
  induction 1 as [| [key f] [key' rule] shape rules [Hk Hf] _ [IHt IHf]].
  - split; [reflexivity | discriminate].
  - cbn [fst snd] in Hk, Hf. subst key'.
    rewrite object_cons. cbn [forallb snd].
    destruct Hf as [_ Hf]. destruct (rule v).
    + rewrite Hf. cbn [andb]. split.
      * intros Hall. rewrite (IHt Hall). reflexivity.
      * intros Hall. specialize (IHf Hall). cbn [status OK mergeStatus].
        destruct (status (object_ shape [] v)); congruence.
    + split; [discriminate |]. intros _. destruct Hf as [Hs _].
      cbn [status].
      destruct (status (f [key] v)), (status (object_ shape [] v));
        cbn; congruence.
Qed.

Lemma object_find_absent shape rules name :
  implements v shape rules ->
  ~ In name (map fst rules) ->
  find (at_ name) (issues (object_ shape [] v)) = None.
Proof.
  induction 1 as [| [key f] [key' rule] shape rules [Hk Hf] _ IH];
    intros Hn; [reflexivity |].
  cbn [fst snd] in Hk, Hf. subst key'.
  rewrite object_cons. cbn [issues]. rewrite find_app.
  cbn [map fst In] in Hn.
  rewrite (find_located_other name key) by (tauto || apply Hf).
  apply IH. tauto.
Qed.

Lemma object_find shape rules name rule :
  implements v shape rules ->
  NoDup (map fst rules) ->
  In (name, rule) rules ->
  if rule v
  then find (at_ name) (issues (object_ shape [] v)) = None
  else exists i, find (at_ name) (issues (object_ shape [] v)) = Some i
                 /\ message i <> ""%string.
Proof.
  induction 1 as [| [key f] [key' rule'] shape rules [Hk Hf] Himp IH];
    intros Hnd Hin; [destruct Hin |].
  cbn [fst snd] in Hk, Hf. subst key'.
  rewrite object_cons. cbn [issues]. rewrite find_app.
  cbn [map fst] in Hnd. inversion Hnd as [| ? ? Hnotin Hnd']; subst.
  destruct Hin as [Heq | Hin].
  - inversion Heq; subst name rule'. destruct Hf as [Hloc Hf].
    destruct (rule v).
    + rewrite Hf. cbn [issues OK find].
      apply (object_find_absent shape rules key Himp Hnotin).
    + destruct Hf as [_ (i & rest & Hi & Hm)].
      rewrite Hi in *. cbn [find]. unfold at_ at 1.
      inversion Hloc as [| ? ? Hp _]; subst.
      rewrite Hp, joinPath_singleton, String.eqb_refl.
      exists i. split; [reflexivity | exact Hm].
  - assert (Hne : key <> name).
    { intros ->. apply Hnotin.
      change name with (fst (name, rule)). now apply in_map. }
    rewrite (find_located_other name key) by (assumption || apply Hf).
    apply IH; assumption.
Qed.

End ObjectSchema.

(** ** The field schemas implement the field rules *)

Import Rules.

Ltac nonempty_message :=
  let H := fresh in
  cbn; intros H; discriminate H.

Lemma string_min_spec (n : nat) (msg key : string) (x : option jsstring) :
  msg <> ""%string ->
  fieldSpec (string_ [min n (Some msg)] [key] x) key (minLength n x).
Proof.
  intros Hmsg. unfold fieldSpec, string_, minLength.
  destruct x as [s |]; cbn [flat_map checkIssues checkPasses app].
  - unfold checkIssues. cbn [checkPasses].
    destruct (n <=? length s); cbn.
    + split; [constructor | reflexivity].
    + split; [repeat constructor |].
      split; [discriminate |]. eauto.
  - cbn. split; [repeat constructor |].
    split; [discriminate |]. eexists _, _. split; [reflexivity |].
    nonempty_message.
Qed.

Lemma string_min_max_spec (lo hi : nat) (msg key : string)
      (x : option jsstring) :
  msg <> ""%string ->
  fieldSpec (string_ [min lo (Some msg); max hi None] [key] x) key
            (lengthBetween lo hi x).
Proof.
  intros Hmsg. unfold fieldSpec, string_, lengthBetween.
  destruct x as [s |].
  - cbn [flat_map]. unfold checkIssues. cbn [checkPasses].
    destruct (lo <=? length s), (length s <=? hi); cbn [andb app issues status].
    + split; [constructor | reflexivity].
    + split; [repeat constructor |]. split; [discriminate |].
      eexists _, _. split; [reflexivity |]. nonempty_message.
    + split; [repeat constructor |]. split; [discriminate |]. eauto.
    + split; [repeat constructor |]. split; [discriminate |]. eauto.
  - cbn. split; [repeat constructor |].
    split; [discriminate |]. eexists _, _. split; [reflexivity |].
    nonempty_message.
Qed.

Lemma exactLength_between (n : nat) (x : option jsstring) :
  exactLength n x = lengthBetween n n x.
Proof.
  destruct x as [s |]; [| reflexivity]. cbn.
  destruct (Nat.eqb_spec (length s) n), (Nat.leb_spec n (length s)),
    (Nat.leb_spec (length s) n); cbn; trivial; lia.
Qed.

Lemma literal_spec (t : TransferType) (shown key : string)
      (x : option TransferType) :
  fieldSpec (literal TransferType_eqb t shown [key] x) key (isVariant t x).
Proof.
  unfold fieldSpec, literal, isVariant.
  destruct x as [t' |]; [destruct (TransferType_eqb t' t) |]; cbn.
  - split; [constructor | reflexivity].
  - split; [repeat constructor |]. split; [discriminate |].
    eexists _, _. split; [reflexivity |]. nonempty_message.
  - split; [repeat constructor |]. split; [discriminate |].
    eexists _, _. split; [reflexivity |]. nonempty_message.
Qed.

Lemma amountCheck_positiveNumber (s : jsstring) :
  TransferForm.amountCheck s = positiveNumber (Some s).
Proof.
  unfold TransferForm.amountCheck, positiveNumber.
  destruct (Number s); reflexivity.
Qed.

Lemma amountSchema_spec (key : string) (x : option jsstring) :
  fieldSpec (TransferForm.amountSchema [key] x) key (positiveNumber x).
Proof.
  unfold TransferForm.amountSchema. destruct x as [s |].
  - rewrite amountCheck_positiveNumber. unfold fieldSpec, refine.
    cbn [string_ flat_map status issues].
    destruct (positiveNumber (Some s)); cbn.
    + split; [constructor | reflexivity].
    + split; [repeat constructor |]. split; [discriminate |].
      eexists _, _. split; [reflexivity |]. nonempty_message.
  - cbn. split; [repeat constructor |]. split; [discriminate |].
    eexists _, _. split; [reflexivity |]. nonempty_message.
Qed.

Lemma optional_string_spec (key : string) (x : option jsstring) :
  fieldSpec (optional (string_ []) [key] x) key true.
Proof.
  unfold fieldSpec. destruct x; cbn; split; (constructor || reflexivity).
Qed.

Ltac field_specs :=
  repeat (apply Forall2_cons; [split; [reflexivity | cbn [fst snd]] |]);
  try apply Forall2_nil;
  first [ apply string_min_spec; discriminate
        | rewrite exactLength_between; apply string_min_max_spec; discriminate
        | apply string_min_max_spec; discriminate
        | apply literal_spec
        | apply amountSchema_spec
        | apply optional_string_spec ].

Lemma domesticShape_implements (v : FormValues) :
  implements v TransferForm.domesticShape (fieldRules domestic).
Proof. unfold implements, TransferForm.domesticShape, fieldRules. field_specs. Qed.

Lemma internationalShape_implements (v : FormValues) :
  implements v TransferForm.internationalShape (fieldRules international).
Proof.
  unfold implements, TransferForm.internationalShape, fieldRules. field_specs.
Qed.

Lemma fieldRules_NoDup (t : TransferType) : NoDup (map fst (fieldRules t)).
Proof.
  destruct t; cbn;
    repeat (constructor; [cbn; intuition discriminate |]); constructor.
Qed.

(** ** Submitting the form for review *)

Import TransferForm.

Lemma data_of_draft (tab : TransferType) (v : FormValues) :
  draftOf tab v = true ->
  match tab with
  | domestic => domesticData v
  | international => internationalData v
  end = v.
Proof.
  destruct v as [tt rn an ro bn am de ib sw ba bc cu us sa sk].
  unfold draftOf. cbn [useStripe stripeAccountId stripePublishableKey iban
    swiftCode bankAddress bankCountry currency accountNumber routingNumber].
  destruct tab, us, sa, sk, ib, sw, ba, bc, cu, an, ro;
    cbn; intros H; try discriminate H; reflexivity.
Qed.

(** The resolver on a well-formed draft of the active variant returns
    the draft. *)
Lemma resolver_valid (tab : TransferType) (v : FormValues) :
  draftOf tab v = true ->
  wellFormed tab v = true ->
  resolver tab v = inl v.
Proof.
  intros Hdraft Hwf. pose proof (data_of_draft tab v Hdraft) as Hdata.
  destruct tab; unfold resolver, zodResolver.
  - destruct (object_status v _ _ (domesticShape_implements v)) as [Hok _].
    unfold domesticFormSchema. rewrite (Hok Hwf). cbn. now rewrite Hdata.
  - destruct (object_status v _ _ (internationalShape_implements v))
      as [Hok _].
    unfold internationalFormSchema. rewrite (Hok Hwf). cbn. now rewrite Hdata.
Qed.

(** On any other draft the resolver returns errors: a non-empty message
    for each field that violates its rule, nothing for the others. *)
Lemma resolver_invalid (tab : TransferType) (v : FormValues) :
  wellFormed tab v = false ->
  exists errs,
    resolver tab v = inr errs
    /\ (forall name rule,
           In (name, rule) (fieldRules tab) ->
           if rule v then errorFor name errs = None
           else exists msg, errorFor name errs = Some msg /\ msg <> ""%string)
    /\ (forall name,
           ~ In name (map fst (fieldRules tab)) -> errorFor name errs = None).
Proof.
  intros Hwf.
  assert (Hgen : forall shape,
             implements v shape (fieldRules tab) ->
             let errs := parseErrorSchema (issues (object_ shape [] v)) [] in
             isValid (object_ shape [] v) = false
             /\ (forall name rule,
                    In (name, rule) (fieldRules tab) ->
                    if rule v then errorFor name errs = None
                    else exists msg,
                        errorFor name errs = Some msg /\ msg <> ""%string)
             /\ (forall name,
                    ~ In name (map fst (fieldRules tab)) ->
                    errorFor name errs = None)).
  { intros shape Himp errs. subst errs.
    destruct (object_status v _ _ Himp) as [_ Hbad]. specialize (Hbad Hwf).
    split; [| split].
    - unfold isValid. destruct (status (object_ shape [] v)); congruence.
    - intros name rule Hin.
      pose proof (object_find v _ _ name rule Himp (fieldRules_NoDup tab) Hin)
        as Hf.
      rewrite errorFor_parseErrorSchema. cbn [errorFor].
      destruct (rule v).
      + now rewrite Hf.
      + destruct Hf as (i & Hi & Hm). rewrite Hi. cbn. eauto.
    - intros name Hn. rewrite errorFor_parseErrorSchema. cbn [errorFor].
      now rewrite (object_find_absent v _ _ name Himp Hn). }
  destruct tab; unfold resolver, zodResolver.
  - destruct (Hgen _ (domesticShape_implements v)) as (Hv & H1 & H2).
    unfold domesticFormSchema. rewrite Hv. eauto.
  - destruct (Hgen _ (internationalShape_implements v)) as (Hv & H1 & H2).
    unfold internationalFormSchema. rewrite Hv. eauto.
Qed.

(** C1: for every draft of the active variant in which every field of
    that variant satisfies its rule, submitting the form takes the
    wizard from step [form] to step [summary] and makes [formData] the
    draft itself, field for field; nothing else happens (no timer is
    started, no toast is shown, the form values stay). *)
Theorem valid_draft_goes_to_summary (st : State) :
  step st = form ->
  draftOf (activeTab st) (values (form_ st)) = true ->
  wellFormed (activeTab st) (values (form_ st)) = true ->
  step (dispatch Submit st) = summary
  /\ formData (dispatch Submit st) = Some (values (form_ st))
  /\ activeTab (dispatch Submit st) = activeTab st
  /\ values (form_ (dispatch Submit st)) = values (form_ st)
  /\ errors (form_ (dispatch Submit st)) = []
  /\ timeouts (dispatch Submit st) = timeouts st
  /\ toasts (dispatch Submit st) = toasts st.
Proof.
  intros Hstep Hdraft Hwf.
  unfold dispatch. rewrite Hstep. unfold handleSubmit.
  rewrite (resolver_valid _ _ Hdraft Hwf).
  repeat split.
Qed.

Lemma valid_draft_goes_to_summary_witness :
  step (dispatch Submit (run typingJohnDoe mount)) = summary
  /\ formData (dispatch Submit (run typingJohnDoe mount))
     = Some (with_description [] johnDoe).
Proof.
  destruct (valid_draft_goes_to_summary (run typingJohnDoe mount))
    as (H1 & H2 & _); [reflexivity | reflexivity | reflexivity |].
  split; [exact H1 | exact H2].
Defined.

(** C2: for every draft in which at least one field of the active
    variant is missing or violates its rule, submitting the form leaves
    the wizard in step [form] and leaves [formData] as it was; the
    errors of the form hold a non-empty message for every field that
    violates its rule, and no error for a field that satisfies its rule
    nor for any other name. *)
Theorem invalid_draft_stays_on_form (st : State) :
  step st = form ->
  wellFormed (activeTab st) (values (form_ st)) = false ->
  step (dispatch Submit st) = form
  /\ formData (dispatch Submit st) = formData st
  /\ values (form_ (dispatch Submit st)) = values (form_ st)
  /\ (forall name rule,
         In (name, rule) (fieldRules (activeTab st)) ->
         rule (values (form_ st)) = false ->
         exists msg,
           errorFor name (errors (form_ (dispatch Submit st))) = Some msg
           /\ msg <> ""%string)
  /\ (forall name rule,
         In (name, rule) (fieldRules (activeTab st)) ->
         rule (values (form_ st)) = true ->
         errorFor name (errors (form_ (dispatch Submit st))) = None)
  /\ (forall name,
         ~ In name (map fst (fieldRules (activeTab st))) ->
         errorFor name (errors (form_ (dispatch Submit st))) = None).
Proof.
  intros Hstep Hwf.
  destruct (resolver_invalid _ _ Hwf) as (errs & Hr & Hrules & Hother).
  unfold dispatch. rewrite Hstep. unfold handleSubmit. rewrite Hr.
  cbn [setForm step formData form_ values errors].
  repeat split; try assumption.
  - intros name rule Hin Hrule. specialize (Hrules name rule Hin).
    now rewrite Hrule in Hrules.
  - intros name rule Hin Hrule. specialize (Hrules name rule Hin).
    now rewrite Hrule in Hrules.
Qed.

Lemma invalid_draft_stays_on_form_witness :
  step (dispatch Submit mount) = form
  /\ formData (dispatch Submit mount) = None
  /\ errorFor "accountNumber" (errors (form_ (dispatch Submit mount)))
     = Some "Account number must be at least 8 characters."%string
  /\ errorFor "description" (errors (form_ (dispatch Submit mount))) = None.
Proof.
  destruct (invalid_draft_stays_on_form mount)
    as (H1 & H2 & _); [reflexivity | reflexivity |].
  split; [exact H1 |]. split; [exact H2 |]. split; reflexivity.
Defined.

(** What the resolver reports, field by field. *)
Lemma resolver_errors (tab : TransferType) (v : FormValues)
      (name : string) (rule : FormValues -> bool) :
  In (name, rule) (fieldRules tab) ->
  errorFor name (errorsOf (resolver tab v)) = None <-> rule v = true.
Proof.
  intros Hin. destruct (wellFormed tab v) eqn:Hwf.
  - assert (Hr : errorsOf (resolver tab v) = []).
    { destruct tab; unfold resolver, zodResolver.
      - destruct (object_status v _ _ (domesticShape_implements v)) as [Hok _].
        unfold domesticFormSchema. now rewrite (Hok Hwf).
      - destruct (object_status v _ _ (internationalShape_implements v))
          as [Hok _].
        unfold internationalFormSchema. now rewrite (Hok Hwf). }
    rewrite Hr. cbn [errorFor]. split; [intros _ | reflexivity].
    unfold wellFormed in Hwf. rewrite forallb_forall in Hwf.
    exact (Hwf _ Hin).
  - destruct (resolver_invalid tab v Hwf) as (errs & Hr & Hrules & _).
    rewrite Hr. cbn [errorsOf]. specialize (Hrules name rule Hin).
    destruct (rule v).
    + tauto.
    + destruct Hrules as (msg & Hm & _). rewrite Hm.
      split; discriminate.
Qed.

(** ** The amount rule *)

(** C3: the amount rule of both forms accepts a string exactly when it
    parses as a number strictly greater than zero; a rejected string
    gives one issue, with the message of the source, at the path of the
    amount field.  ["0"], ["-5"] and ["abc"] are rejected, the form
    reporting the error on [amount]; ["12.50"] and ["0.01"] are
    accepted. *)
Theorem amount_rule_accepts_positive_numbers :
  (forall val key,
      (TransferForm.amountSchema [key] (Some val) = OK
       <-> positiveNumber (Some val) = true)
      /\ (StripeTransferForm.amountSchema [key] (Some val) = OK
          <-> positiveNumber (Some val) = true)
      /\ (positiveNumber (Some val) = false ->
          issues (TransferForm.amountSchema [key] (Some val))
          = [ {| path := [key];
                 message := "Amount must be a positive number." |} ]
          /\ issues (StripeTransferForm.amountSchema [key] (Some val))
             = [ {| path := [key];
                    message := "Amount must be a positive number." |} ]))
  /\ Forall (fun a =>
               resolver domestic (with_amount (js a) johnDoe)
               = inr [("amount"%string,
                       "Amount must be a positive number."%string)]
               /\ StripeTransferForm.resolver
                    (with_amount (js a) (janeSmith false [] []))
                  = inr [("amount"%string,
                          "Amount must be a positive number."%string)])
            ["0"; "-5"; "abc"]%string
  /\ Forall (fun a =>
               resolver domestic (with_amount (js a) johnDoe)
               = inl (with_amount (js a) johnDoe)
               /\ StripeTransferForm.resolver
                    (with_amount (js a) (janeSmith false [] []))
                  = inl (with_amount (js a) (janeSmith false [] [])))
            ["12.50"; "0.01"]%string.
Proof.
  split; [| split].
  - intros val key.
    assert (Hs : StripeTransferForm.amountSchema [key] (Some val)
                 = TransferForm.amountSchema [key] (Some val))
      by reflexivity.
    rewrite Hs.
    unfold TransferForm.amountSchema. rewrite amountCheck_positiveNumber.
    unfold refine. cbn [string_ flat_map status issues].
    destruct (positiveNumber (Some val)); cbn.
    + repeat split; trivial; discriminate.
    + repeat split; trivial; discriminate.
  - repeat constructor.
  - repeat constructor.
Qed.

(** ** The routing number rule *)

(** C10: the domestic form reports no error on [routingNumber] exactly
    when the value is a string of length 9, whatever its characters:
    ["abcdefghi"] is accepted although the message of the rule speaks
    of digits; a string of 8 characters is rejected with the message
    "Routing number must be 9 digits.", one of 10 characters with the
    library's message for the bare [max(9)]. *)
Theorem routing_number_checks_length_only :
  (forall v,
      errorFor "routingNumber" (errorsOf (resolver domestic v)) = None
      <-> exactLength 9 (routingNumber v) = true)
  /\ (forall s, exactLength 9 (Some s) = true <-> length s = 9)
  /\ resolver domestic (with_routingNumber (js "abcdefghi") johnDoe)
     = inl (with_routingNumber (js "abcdefghi") johnDoe)
  /\ resolver domestic (with_routingNumber (js "12345678") johnDoe)
     = inr [("routingNumber"%string,
             "Routing number must be 9 digits."%string)]
  /\ (exists msg,
         resolver domestic (with_routingNumber (js "1234567890") johnDoe)
         = inr [("routingNumber"%string, msg)]
         /\ msg <> ""%string).
Proof.
  split; [| split; [| split; [| split]]].
  - intros v.
    apply (resolver_errors domestic v "routingNumber"
             (fun v => exactLength 9 (routingNumber v))).
    cbn. tauto.
  - intros s. cbn [exactLength]. apply Nat.eqb_eq.
  - reflexivity.
  - reflexivity.
  - eexists. split; [reflexivity | discriminate].
Qed.

(** ** The Stripe rules *)

Lemma default_boolean_spec (key : string) (x : option bool) :
  fieldSpec (default boolean false [key] x) key true.
Proof.
  unfold fieldSpec. destruct x; cbn; split; (constructor || reflexivity).
Qed.

Lemma stripeShape_implements (v : FormValues) :
  implements v StripeTransferForm.internationalShape stripeBaseRules.
Proof.
  unfold implements, StripeTransferForm.internationalShape, stripeBaseRules.
  repeat (apply Forall2_cons; [split; [reflexivity | cbn [fst snd]] |]);
    try apply Forall2_nil;
    first [ apply string_min_spec; discriminate
          | apply string_min_max_spec; discriminate
          | apply (amountSchema_spec _ (amount v))
          | apply optional_string_spec
          | apply default_boolean_spec ].
Qed.

Lemma stripeBaseRules_NoDup : NoDup (map fst stripeBaseRules).
Proof.
  cbn. repeat (constructor; [cbn; intuition discriminate |]); constructor.
Qed.

Lemma stripeFieldCheck_spec (n : nat) (v : FormValues) (x : option jsstring) :
  1 <= n ->
  StripeTransferForm.stripeFieldCheck
    n (useStripe (StripeTransferForm.internationalData v)) x
  = negb (usesStripe v && negb (minLength n x)).
Proof.
  intros Hn. unfold StripeTransferForm.stripeFieldCheck, usesStripe.
  cbn [useStripe StripeTransferForm.internationalData].
  destruct (match useStripe v with Some b => b | None => false end);
    [| reflexivity].
  destruct x as [[| c s] |]; cbn [truthy negb orb andb minLength length].
  - destruct n; [lia | reflexivity].
  - destruct (Nat.ltb_spec (S (length s)) n),
      (Nat.leb_spec n (S (length s))); try lia; reflexivity.
  - reflexivity.
Qed.

Lemma mergeStatus_not_aborted (a b : ParseStatus) :
  a <> aborted -> b <> aborted -> mergeStatus a b <> aborted.
Proof. destruct a, b; cbn; congruence. Qed.

Lemma string_present_status checks p (s : jsstring) :
  status (string_ checks p (Some s)) <> aborted.
Proof.
  cbn. destruct (flat_map (checkIssues p s) checks); discriminate.
Qed.

(** With every required field present, the object schema of the
    Stripe-enabled form does not abort, so both refinements run. *)
Lemma stripe_base_not_aborted (v : FormValues) :
  present v = true ->
  status (object_ StripeTransferForm.internationalShape [] v) <> aborted.
Proof.
  unfold present.
  destruct v as [tt rn an ro bn am de ib sw ba bc cu us sa sk].
  cbn [recipientName iban swiftCode bankName bankAddress bankCountry
       amount currency].
  destruct rn, ib, sw, bn, ba, bc, am, cu; try discriminate. intros _.
  unfold object_, StripeTransferForm.internationalShape.
  cbn [map fold_right status fst snd app recipientName iban swiftCode
       bankName bankAddress bankCountry amount currency description
       useStripe stripeAccountId stripePublishableKey].
  repeat (apply mergeStatus_not_aborted;
          [first [ apply string_present_status | idtac ] |]);
    try discriminate.
  - unfold StripeTransferForm.amountSchema, refine.
    cbn [string_ flat_map status].
    destruct (StripeTransferForm.amountCheck _); discriminate.
  - destruct de; cbn; discriminate.
  - destruct us; cbn; discriminate.
  - destruct sa; cbn; discriminate.
  - destruct sk; cbn; discriminate.
Qed.

(** The two refinements on top of an object parse that did not abort. *)
Lemma stripe_schema_result (v : FormValues) :
  status (object_ StripeTransferForm.internationalShape [] v) <> aborted ->
  issues (StripeTransferForm.internationalFormSchema v)
  = issues (object_ StripeTransferForm.internationalShape [] v)
    ++ (if usesStripe v && negb (minLength 3 (stripeAccountId v))
        then [ {| path := ["stripeAccountId"%string];
                  message := "Stripe Account ID is required when using Stripe." |} ]
        else [])
    ++ (if usesStripe v && negb (minLength 10 (stripePublishableKey v))
        then [ {| path := ["stripePublishableKey"%string];
                  message := "Stripe Publishable Key is required when using Stripe." |} ]
        else [])
  /\ isValid (StripeTransferForm.internationalFormSchema v)
     = isValid (object_ StripeTransferForm.internationalShape [] v)
       && negb (usesStripe v && negb (minLength 3 (stripeAccountId v)))
       && negb (usesStripe v && negb (minLength 10 (stripePublishableKey v))).
Proof.
  intros Hna. unfold StripeTransferForm.internationalFormSchema.
  rewrite !stripeFieldCheck_spec by lia.
  cbn [stripeAccountId stripePublishableKey
       StripeTransferForm.internationalData].
  set (base := object_ StripeTransferForm.internationalShape [] v) in *.
  destruct (usesStripe v && negb (minLength 3 (stripeAccountId v)));
    destruct (usesStripe v && negb (minLength 10 (stripePublishableKey v)));
    unfold refine, isValid; destruct (status base) eqn:Hs;
    try congruence; cbn [negb status issues app andb];
    rewrite ?Hs, ?app_nil_r, <- ?app_assoc; cbn [app]; split; reflexivity.
Qed.

(** C4: in the Stripe-enabled form, for every draft whose required
    non-Stripe fields are present: when [useStripe] is true, a Stripe
    field below its minimum (3 for [stripeAccountId], 10 for
    [stripePublishableKey]) gets the error, at its own path, and a
    Stripe field that meets its minimum gets none; when [useStripe] is
    false neither gets one; [useStripe] itself never gets one.  When
    the non-Stripe fields are valid, the draft is accepted exactly when
    [useStripe] is false or both Stripe fields meet their minimums, and
    the errors are those of the violated Stripe fields only; so the
    draft with [useStripe] true, [stripeAccountId] [""] and a valid key
    fails with one error, on [stripeAccountId]. *)
Theorem stripe_fields_required_iff_useStripe (v : FormValues) :
  present v = true ->
  errorFor "stripeAccountId" (errorsOf (StripeTransferForm.resolver v))
  = (if usesStripe v && negb (minLength 3 (stripeAccountId v))
     then Some "Stripe Account ID is required when using Stripe."%string
     else None)
  /\ errorFor "stripePublishableKey"
              (errorsOf (StripeTransferForm.resolver v))
     = (if usesStripe v && negb (minLength 10 (stripePublishableKey v))
        then Some "Stripe Publishable Key is required when using Stripe."%string
        else None)
  /\ errorFor "useStripe" (errorsOf (StripeTransferForm.resolver v)) = None
  /\ (forallb (fun r => snd r v) stripeBaseRules = true ->
      errorsOf (StripeTransferForm.resolver v) = stripeErrors v
      /\ ((exists data, StripeTransferForm.resolver v = inl data)
          <-> usesStripe v = false
              \/ (minLength 3 (stripeAccountId v) = true
                  /\ minLength 10 (stripePublishableKey v) = true)))
  /\ StripeTransferForm.resolver (janeSmith true [] (js "pk_test_0123456789"))
     = inr [("stripeAccountId"%string,
             "Stripe Account ID is required when using Stripe."%string)].
Proof.
  intros Hp.
  pose proof (stripe_base_not_aborted v Hp) as Hna.
  destruct (stripe_schema_result v Hna) as [Hi Hv].
  pose proof (stripeShape_implements v) as Himp.
  assert (Hfind : forall name,
             In (name, fun _ : FormValues => true) stripeBaseRules ->
             find (at_ name)
                  (issues (object_ StripeTransferForm.internationalShape [] v))
             = None).
  { intros name Hin.
    exact (object_find v _ _ name _ Himp stripeBaseRules_NoDup Hin). }
  assert (Herr : forall name,
             In (name, fun _ : FormValues => true) stripeBaseRules ->
             errorFor name (errorsOf (StripeTransferForm.resolver v))
             = if isValid (StripeTransferForm.internationalFormSchema v)
               then None
               else option_map message
                      (find (at_ name)
                         ((if usesStripe v
                              && negb (minLength 3 (stripeAccountId v))
                           then [ {| path := ["stripeAccountId"%string];
                                     message := "Stripe Account ID is required when using Stripe." |} ]
                           else [])
                          ++ (if usesStripe v
                                 && negb (minLength 10 (stripePublishableKey v))
                              then [ {| path := ["stripePublishableKey"%string];
                                        message := "Stripe Publishable Key is required when using Stripe." |} ]
                              else [])))).
  { intros name Hin. unfold StripeTransferForm.resolver, zodResolver.
    destruct (isValid (StripeTransferForm.internationalFormSchema v));
      [reflexivity |].
    cbn [errorsOf]. rewrite errorFor_parseErrorSchema. cbn [errorFor].
    rewrite Hi, find_app, (Hfind name Hin). reflexivity. }
  split; [| split; [| split; [| split]]].
  - rewrite Herr by (cbn; tauto). rewrite Hv.
    destruct (isValid (object_ _ [] v));
      destruct (usesStripe v && negb (minLength 3 (stripeAccountId v)));
      destruct (usesStripe v && negb (minLength 10 (stripePublishableKey v)));
      reflexivity.
  - rewrite Herr by (cbn; tauto). rewrite Hv.
    destruct (isValid (object_ _ [] v));
      destruct (usesStripe v && negb (minLength 3 (stripeAccountId v)));
      destruct (usesStripe v && negb (minLength 10 (stripePublishableKey v)));
      reflexivity.
  - rewrite Herr by (cbn; tauto). rewrite Hv.
    destruct (isValid (object_ _ [] v));
      destruct (usesStripe v && negb (minLength 3 (stripeAccountId v)));
      destruct (usesStripe v && negb (minLength 10 (stripePublishableKey v)));
      reflexivity.
  - intros Hbase.
    destruct (object_status v _ _ Himp) as [Hok _]. specialize (Hok Hbase).
    rewrite Hok in Hi, Hv. cbn [isValid status OK issues app andb] in Hi, Hv.
    unfold StripeTransferForm.resolver, zodResolver, stripeErrors.
    rewrite Hv, Hi.
    destruct (usesStripe v); cbn [andb negb];
      [| split; [reflexivity | split; eauto]].
    destruct (minLength 3 (stripeAccountId v));
      destruct (minLength 10 (stripePublishableKey v)); cbn;
      (split; [reflexivity |]);
      (split; [intros [d Hd]; discriminate Hd || eauto
              | intros [Hf | [H3 H10]]; discriminate || eauto]).
  - reflexivity.
Qed.

Lemma stripe_fields_required_iff_useStripe_witness :
  errorFor "stripeAccountId"
           (errorsOf (StripeTransferForm.resolver
                        (janeSmith true [] (js "pk_test_0123456789"))))
  = Some "Stripe Account ID is required when using Stripe."%string
  /\ errorFor "useStripe"
              (errorsOf (StripeTransferForm.resolver
                           (janeSmith true [] (js "pk_test_0123456789"))))
     = None.
Proof.
  destruct (stripe_fields_required_iff_useStripe
              (janeSmith true [] (js "pk_test_0123456789")))
    as (H1 & _ & H3 & _); [reflexivity |].
  split; [exact H1 | exact H3].
Defined.

(** Whatever happens to the mounted wizard, its form values and its
    default values carry the fields of the active variant only. *)
Lemma draftOf_tabValues (t : TransferType) (r a d b : jsstring) :
  draftOf t (tabValues t r a d b) = true.
Proof. destruct t; reflexivity. Qed.

Lemma draftOf_setValue (t : TransferType) (f : Field) (x : jsstring)
      (v : FormValues) :
  rendered t f = true ->
  draftOf t v = true ->
  draftOf t (setValue f x v) = true.
Proof.
  destruct v as [tt rn an ro bn am de ib sw ba bc cu us sa sk].
  destruct t, f; cbn; intros Hr Hv; (discriminate Hr || exact Hv).
Qed.

Lemma dispatch_keeps_draftOf (e : Event) (st : State) :
  draftOf (activeTab st) (values (form_ st)) = true ->
  draftOf (activeTab st) (defaultValues (form_ st)) = true ->
  draftOf (activeTab (dispatch e st)) (values (form_ (dispatch e st))) = true
  /\ draftOf (activeTab (dispatch e st))
             (defaultValues (form_ (dispatch e st))) = true.
Proof.
  intros Hv Hd. unfold dispatch.
  destruct e as [f text | value | | | | |], (step st) eqn:Hs;
    try (split; assumption);
    try (destruct (formData st); split; assumption);
    try (destruct (timeouts st); split; assumption).
  - destruct (rendered (activeTab st) f) eqn:Hr; [| split; assumption].
    split; [| exact Hd].
    cbn [setForm onChange activeTab form_ values].
    apply draftOf_setValue; assumption.
  - destruct (TransferType_eqb value (activeTab st)) eqn:E.
    + assert (value = activeTab st) as ->
        by (destruct value, (activeTab st); (reflexivity || discriminate)).
      split; assumption.
    + split; apply draftOf_tabValues.
  - unfold handleSubmit.
    destruct (resolver (activeTab st) (values (form_ st)));
      split; assumption.
Qed.

Lemma reachable_draftOf (es : list Event) :
  draftOf (activeTab (run es mount)) (values (form_ (run es mount))) = true.
Proof.
  assert (H : forall st,
             draftOf (activeTab st) (values (form_ st)) = true ->
             draftOf (activeTab st) (defaultValues (form_ st)) = true ->
             draftOf (activeTab (run es st)) (values (form_ (run es st)))
             = true).
  { induction es as [| e es IH]; intros st Hv Hd; [exact Hv |].
    cbn [run fold_left].
    destruct (dispatch_keeps_draftOf e st Hv Hd) as [Hv' Hd'].
    exact (IH _ Hv' Hd'). }
  apply H; reflexivity.
Qed.

(** So every well-formed draft the mounted form can come to hold is
    committed as it is. *)
Corollary reachable_valid_draft_is_committed (es : list Event) :
  step (run es mount) = form ->
  wellFormed (activeTab (run es mount)) (values (form_ (run es mount)))
  = true ->
  step (run (es ++ [Submit]) mount) = summary
  /\ formData (run (es ++ [Submit]) mount)
     = Some (values (form_ (run es mount))).
Proof.
  intros Hs Hwf.
  assert (Hrun : run (es ++ [Submit]) mount = dispatch Submit (run es mount))
    by (unfold run; rewrite fold_left_app; reflexivity).
  rewrite Hrun. unfold dispatch. rewrite Hs. unfold handleSubmit.
  rewrite (resolver_valid _ _ (reachable_draftOf es) Hwf).
  split; reflexivity.
Qed.

(** ** Confirming the transfer *)

Lemma run_repeat_S (e : Event) (n : nat) (st : State) :
  run (repeat e (S n)) st = run (repeat e n) (dispatch e st).
Proof. reflexivity. Qed.

Lemma dispatch_Confirm (st : State) (d : FormValues) :
  step st = summary ->
  formData st = Some d ->
  dispatch Confirm st = handleConfirmTransfer st.
Proof. intros Hs Hd. unfold dispatch. now rewrite Hs, Hd. Qed.

Lemma run_Confirms (d : FormValues) (n : nat) :
  forall st,
    step st = summary ->
    formData st = Some d ->
    step (run (repeat Confirm n) st) = summary
    /\ formData (run (repeat Confirm n) st) = Some d
    /\ timeouts (run (repeat Confirm n) st)
       = timeouts st ++ repeat (Some d) n
    /\ toasts (run (repeat Confirm n) st) = toasts st.
Proof.
  induction n as [| n IH]; intros st Hs Hd.
  - cbn. now rewrite app_nil_r.
  - rewrite run_repeat_S, (dispatch_Confirm st d Hs Hd).
    destruct (IH (handleConfirmTransfer st) Hs Hd) as (H1 & H2 & H3 & H4).
    rewrite H1, H2, H3, H4. cbn [handleConfirmTransfer timeouts toasts].
    rewrite Hd, <- app_assoc. repeat split.
Qed.

Lemma run_Timeouts (pending : list (option FormValues)) :
  forall st,
    timeouts st = pending ->
    timeouts (run (repeat Timeout (length pending)) st) = []
    /\ length (toasts (run (repeat Timeout (length pending)) st))
       = length (toasts st) + length pending
    /\ (pending <> [] ->
        step (run (repeat Timeout (length pending)) st) = success).
Proof.
  induction pending as [| c rest IH]; intros st Ht.
  - cbn. repeat split; [assumption | lia | congruence].
  - cbn [length]. rewrite run_repeat_S.
    assert (Hd : dispatch Timeout st
                 = timeoutCallback c
                     {| activeTab := activeTab st; step := step st;
                        formData := formData st; form_ := form_ st;
                        timeouts := rest; toasts := toasts st |}).
    { unfold dispatch. rewrite Ht. destruct (step st); reflexivity. }
    rewrite Hd.
    match goal with
    | |- context [run _ ?s] =>
        destruct (IH s eq_refl) as (H1 & H2 & H3)
    end.
    split; [exact H1 | split].
    + rewrite H2. cbn [timeoutCallback setStep toasts].
      rewrite length_app. cbn [length]. lia.
    + intros _. destruct rest as [| c' rest'].
      * reflexivity.
      * apply H3. discriminate.
Qed.

(** C5, the claim as stated fails: from the summary of the scenario's
    draft, a second call of the confirm handler while the first timer is
    pending is not a no-op: it changes the state by starting a second
    timer, and both timers later run, each showing its success toast. *)
Lemma second_confirm_schedules_again :
  step (dispatch Submit (editing domestic johnDoe)) = summary
  /\ run [Confirm; Confirm] (dispatch Submit (editing domestic johnDoe))
     <> run [Confirm] (dispatch Submit (editing domestic johnDoe))
  /\ timeouts (run [Confirm; Confirm]
                   (dispatch Submit (editing domestic johnDoe)))
     = [Some johnDoe; Some johnDoe]
  /\ length (toasts (run [Confirm; Confirm; Timeout; Timeout]
                         (dispatch Submit (editing domestic johnDoe)))) = 2.
Proof.
  split; [reflexivity | split; [| split; reflexivity]].
  intros H. apply (f_equal (fun s => length (timeouts s))) in H.
  vm_compute in H. discriminate H.
Qed.

(** C5 (amended): every call of the confirm handler made while the
    summary is shown starts its own simulated submission, whether or not
    another one is pending: after [n] calls [n] timers are pending, the
    step still being [summary]; when the [n] timers have expired each
    has shown one success toast, none is pending, and (for [n] at least
    1) the step is [success]. *)
Theorem every_confirm_schedules_a_submission (st : State) (n : nat) :
  step st = summary ->
  formData st <> None ->
  timeouts st = [] ->
  step (run (repeat Confirm n) st) = summary
  /\ timeouts (run (repeat Confirm n) st) = repeat (formData st) n
  /\ toasts (run (repeat Confirm n) st) = toasts st
  /\ timeouts (run (repeat Timeout n) (run (repeat Confirm n) st)) = []
  /\ length (toasts (run (repeat Timeout n) (run (repeat Confirm n) st)))
     = length (toasts st) + n
  /\ (1 <= n ->
      step (run (repeat Timeout n) (run (repeat Confirm n) st)) = success).
Proof.
  intros Hs Hd Ht. destruct (formData st) as [d |] eqn:Hfd; [| congruence].
  destruct (run_Confirms d n st Hs Hfd) as (H1 & _ & H3 & H4).
  rewrite Ht in H3. cbn [app] in H3.
  destruct (run_Timeouts (repeat (Some d) n) _ H3) as (H5 & H6 & H7).
  rewrite repeat_length in H5, H6, H7.
  repeat split; try assumption.
  - rewrite H6, H4. reflexivity.
  - intros Hn. apply H7. destruct n; [lia | discriminate].
Qed.

Lemma every_confirm_schedules_a_submission_witness :
  timeouts (run [Confirm; Confirm]
                (dispatch Submit (editing domestic johnDoe)))
  = [Some johnDoe; Some johnDoe]
  /\ step (run [Timeout; Timeout]
               (run [Confirm; Confirm]
                    (dispatch Submit (editing domestic johnDoe)))) = success.
Proof.
  destruct (every_confirm_schedules_a_submission
              (dispatch Submit (editing domestic johnDoe)) 2)
    as (_ & H2 & _ & _ & _ & H6);
    [reflexivity | discriminate | reflexivity |].
  split; [exact H2 | apply H6; lia].
Defined.

(** ** Changing tab *)

Lemma or_empty_Some (s : jsstring) : or_empty (Some s) = s.
Proof. destruct s; reflexivity. Qed.

(** C9, the claim as stated fails: after the switch to the
    international tab the form holds no [accountNumber] (it is
    [undefined], not the empty string), and after the switch back to
    the domestic tab it holds no [currency] (not ["USD"]). *)
Lemma other_variant_fields_are_dropped :
  accountNumber (values (form_ (dispatch (TabChange international) mount)))
  = None
  /\ accountNumber (values (form_ (dispatch (TabChange international) mount)))
     <> Some []
  /\ currency (values (form_ (run [TabChange international; TabChange domestic]
                                  mount))) = None
  /\ currency (values (form_ (run [TabChange international; TabChange domestic]
                                  mount))) <> Some (js "USD").
Proof. repeat split; discriminate. Qed.

(** C9 (amended): switching the active variant while in the form step
    sets every variant-specific field of the newly selected variant to
    its default ([accountNumber], [routingNumber] empty; [iban],
    [swiftCode], [bankAddress], [bankCountry] empty and [currency]
    ["USD"]) and removes the fields of the other variant from the form
    values; it keeps the current values of the common fields
    [recipientName], [amount], [description] and [bankName] (an
    undefined one becomes the empty string). *)
Theorem tab_change_resets_variant_fields (st : State) (t : TransferType) :
  step st = form ->
  t <> activeTab st ->
  activeTab (dispatch (TabChange t) st) = t
  /\ step (dispatch (TabChange t) st) = form
  /\ transferType (values (form_ (dispatch (TabChange t) st))) = Some t
  /\ recipientName (values (form_ (dispatch (TabChange t) st)))
     = Some (or_empty (recipientName (values (form_ st))))
  /\ amount (values (form_ (dispatch (TabChange t) st)))
     = Some (or_empty (amount (values (form_ st))))
  /\ description (values (form_ (dispatch (TabChange t) st)))
     = Some (or_empty (description (values (form_ st))))
  /\ bankName (values (form_ (dispatch (TabChange t) st)))
     = Some (or_empty (bankName (values (form_ st))))
  /\ match t with
     | domestic =>
         accountNumber (values (form_ (dispatch (TabChange t) st))) = Some []
         /\ routingNumber (values (form_ (dispatch (TabChange t) st)))
            = Some []
         /\ iban (values (form_ (dispatch (TabChange t) st))) = None
         /\ swiftCode (values (form_ (dispatch (TabChange t) st))) = None
         /\ bankAddress (values (form_ (dispatch (TabChange t) st))) = None
         /\ bankCountry (values (form_ (dispatch (TabChange t) st))) = None
         /\ currency (values (form_ (dispatch (TabChange t) st))) = None
     | international =>
         iban (values (form_ (dispatch (TabChange t) st))) = Some []
         /\ swiftCode (values (form_ (dispatch (TabChange t) st))) = Some []
         /\ bankAddress (values (form_ (dispatch (TabChange t) st)))
            = Some []
         /\ bankCountry (values (form_ (dispatch (TabChange t) st)))
            = Some []
         /\ currency (values (form_ (dispatch (TabChange t) st)))
            = Some (js "USD")
         /\ accountNumber (values (form_ (dispatch (TabChange t) st))) = None
         /\ routingNumber (values (form_ (dispatch (TabChange t) st))) = None
     end.
Proof.
  intros Hs Ht. unfold dispatch. rewrite Hs.
  destruct t, (activeTab st) eqn:Ha; try congruence;
    cbn [TransferType_eqb]; repeat split; try reflexivity; exact Hs.
Qed.

Lemma tab_change_resets_variant_fields_witness :
  recipientName
    (values (form_ (dispatch (TabChange international)
                             (editing domestic johnDoe))))
  = Some (js "John Doe")
  /\ currency
       (values (form_ (dispatch (TabChange international)
                                (editing domestic johnDoe))))
     = Some (js "USD")
  /\ accountNumber
       (values (form_ (dispatch (TabChange international)
                                (editing domestic johnDoe))))
     = None.
Proof.
  destruct (tab_change_resets_variant_fields
              (editing domestic johnDoe) international)
    as (_ & _ & _ & H4 & _ & _ & _ & _ & _ & _ & _ & H12 & H13 & _);
    [reflexivity | discriminate |].
  split; [exact H4 | split; [exact H12 | exact H13]].
Defined.

(* ================================================================== *)
(** * Further properties of the sources                                 *)
(* ================================================================== *)

(** ** The summary (TransferSummary.tsx) *)

Lemma replace_dot_g_map (s : jsstring) (c : codeunit) :
  replace_dot_g s [c] = map (fun x => if isLineTerminator x then x else c) s.
Proof.
  induction s as [| x s IH]; [reflexivity |].
  unfold replace_dot_g in *. cbn [flat_map map]. rewrite IH.
  destruct (isLineTerminator x); reflexivity.
Qed.

Lemma nth_map_firstn_skipn {A} (f : A -> A) (l : list A) (d : A) :
  forall k i,
    i < length l ->
    nth i (map f (firstn k l) ++ skipn k l) d
    = if i <? k then f (nth i l d) else nth i l d.
Proof.
  induction l as [| x l IH]; intros k i Hi; cbn in Hi; [lia |].
  destruct k as [| k]; [reflexivity |].
  destruct i as [| i]; [reflexivity |].
  cbn [firstn skipn map app nth]. rewrite IH by lia. reflexivity.
Qed.

(** X1: whatever the account number, its masked form has the same
    length; at each position before the last four it shows ['*'],
    unless the original code unit there is a line terminator, which is
    kept; at the last four positions (all of them when there are fewer
    than four) it shows the original code unit. *)
Theorem masked_account_number_positions (a : jsstring) :
  length (maskedAccountNumber a) = length a
  /\ forall i,
      i < length a ->
      nth i (maskedAccountNumber a) 0%N
      = if (i <? length a - 4) && negb (isLineTerminator (nth i a 0%N))
        then 42%N
        else nth i a 0%N.
Proof.
  split; [apply maskedAccountNumber_length |].
  intros i Hi. rewrite maskedAccountNumber_eq.
  change (js "*") with [42%N]. rewrite replace_dot_g_map.
  rewrite nth_map_firstn_skipn by exact Hi.
  destruct (i <? length a - 4);
    [destruct (isLineTerminator (nth i a 0%N)) |]; reflexivity.
Qed.

(** X2: an IBAN of at most 8 characters is not hidden by the mask.  With
    at most 4 characters the summary shows the whole IBAN, the bullets
    and the whole IBAN again; with 4 to 8 characters the first four and
    the last four shown characters overlap and together give the whole
    IBAN. *)
Theorem short_iban_is_shown_in_full (i : jsstring) :
  length i <= 8 ->
  (length i <= 4 -> maskedIban i = i ++ bullets ++ i)
  /\ (4 <= length i ->
      maskedIban i = firstn 4 i ++ bullets ++ skipn (length i - 4) i
      /\ i = firstn 4 i ++ skipn (8 - length i) (skipn (length i - 4) i)).
Proof.
  intros H8. rewrite maskedIban_eq. split.
  - intros H4. replace (length i - 4) with 0 by lia.
    rewrite firstn_all2 by lia. reflexivity.
  - intros H4. split; [reflexivity |].
    rewrite skipn_skipn.
    replace (8 - length i + (length i - 4)) with 4 by lia.
    symmetry. apply firstn_skipn.
Qed.

Lemma short_iban_is_shown_in_full_witness :
  maskedIban (js "GB2") = js "GB2" ++ bullets ++ js "GB2"
  /\ js "GB29NW" = firstn 4 (js "GB29NW")
                   ++ skipn 2 (skipn 2 (js "GB29NW")).
Proof.
  split.
  - destruct (short_iban_is_shown_in_full (js "GB2")) as [H _];
      [vm_compute; lia |].
    apply H. vm_compute; lia.
  - destruct (short_iban_is_shown_in_full (js "GB29NW")) as [_ H];
      [vm_compute; lia |].
    destruct H as [_ H]; [vm_compute; lia |]. exact H.
Defined.

(** X3: rendering the summary fails exactly when the field it masks is
    undefined: [accountNumber] for a domestic [formData], [iban] for
    any other. *)
Theorem summary_fails_iff_masked_field_missing (formData : FormValues) :
  TransferSummary formData = None
  <-> (transferType formData = Some domestic
       /\ accountNumber formData = None)
      \/ (transferType formData <> Some domestic /\ iban formData = None).
Proof.
  unfold TransferSummary.
  destruct (transferType formData) as [[|] |];
    destruct (accountNumber formData), (iban formData);
    split; intros H;
    try discriminate H; try reflexivity;
    try (left; split; [reflexivity | reflexivity]);
    try (right; split; [discriminate | reflexivity]);
    destruct H as [[H1 H2] | [H1 H2]]; congruence.
Qed.

(** X4: the Description line is there exactly when the description is
    a non-empty string; it is then the last line and shows the
    description as it is.  Without it the summary has five lines for a
    domestic draft and seven otherwise. *)
Theorem description_line_iff_non_empty (formData : FormValues)
        (rows : list Row) :
  TransferSummary formData = Some rows ->
  match description formData with
  | Some (c :: s) =>
      exists front,
        rows = front ++ [ {| label := "Description:";
                             shown := Some (c :: s) |} ]
        /\ Forall (fun r => label r <> "Description:"%string) front
        /\ length front
           = match transferType formData with
             | Some domestic => 5
             | _ => 7
             end
  | _ =>
      Forall (fun r => label r <> "Description:"%string) rows
      /\ length rows
         = match transferType formData with
           | Some domestic => 5
           | _ => 7
           end
  end.
Proof.
  unfold TransferSummary. intros H.
  destruct (transferType formData) as [[|] |];
    destruct (accountNumber formData), (iban formData);
    try discriminate H;
    destruct (description formData) as [[| c s] |];
    cbn [truthy app] in H; inversion H; subst rows; clear H;
    match goal with
    | |- exists _, ?r = _ /\ _ =>
        exists (removelast r); cbn [removelast];
        split; [reflexivity |];
        split; [repeat (apply Forall_cons; [discriminate |]);
                apply Forall_nil
               | reflexivity]
    | |- _ /\ _ =>
        split; [repeat (apply Forall_cons; [discriminate |]);
                apply Forall_nil
               | reflexivity]
    end.
Qed.

Lemma description_line_iff_non_empty_witness :
  exists rows,
    TransferSummary johnDoe = Some rows
    /\ Forall (fun r => label r <> "Description:"%string) rows
    /\ length rows = 5.
Proof.
  eexists. split; [reflexivity |].
  exact (description_line_iff_non_empty johnDoe _ eq_refl).
Defined.


(** ** The amount input and the amount rule *)



Lemma trimStart_all_white (s : jsstring) :
  forallb isStrWhiteSpaceChar s = true -> trimStart s = [].
Proof.
  induction s as [| c s IH]; [reflexivity |].
  cbn [forallb trimStart]. intros H. apply andb_true_iff in H as [Hc Hs].
  rewrite Hc. exact (IH Hs).
Qed.

Lemma trimStart_app_last (l : jsstring) (c : codeunit) :
  isStrWhiteSpaceChar c = false ->
  exists l', trimStart (l ++ [c]) = l' ++ [c].
Proof.
  intros Hc. induction l as [| x l IH]; cbn [app trimStart].
  - rewrite Hc. now exists [].
  - destruct (isStrWhiteSpaceChar x); [exact IH | now exists (x :: l)].
Qed.

(** A string that starts with a code unit that is no white space still
    starts with it once trimmed. *)
Lemma trim_cons (c : codeunit) (r : jsstring) :
  isStrWhiteSpaceChar c = false ->
  exists r', trim (c :: r) = c :: r'.
Proof.
  intros Hc. unfold trim. cbn [trimStart]. rewrite Hc. cbn [rev].
  destruct (trimStart_app_last (rev r) c Hc) as [l' Hl'].
  rewrite Hl', rev_app_distr. cbn. now exists (rev l').
Qed.

Lemma strUnsignedDecimalLiteral_cases (negative : bool) (s : jsstring) :
  (s = js "Infinity"
   /\ strUnsignedDecimalLiteral negative s = Infinity negative)
  \/ strUnsignedDecimalLiteral negative s = NaN
  \/ exists m e, strUnsignedDecimalLiteral negative s = Dec negative m e.
Proof.
  unfold strUnsignedDecimalLiteral, jsstring_eqb.
  destruct (list_eq_dec N.eq_dec s (js "Infinity")) as [-> | _];
    [left; split; reflexivity | right].
  destruct (digits 10 0 0 s) as [[ip nip] r1].
  destruct (match r1 with
            | [] => (ip, 0, r1)
            | c :: r => if (c =? 46)%N then digits 10 ip 0 r else (ip, 0, r1)
            end) as [[m nfp] r2].
  destruct (nip + nfp); [now left |].
  destruct (exponentPart r2) as [[e [| x rest]] |]; eauto.
Qed.


Lemma onlyDigitsAndPeriods_clean (text : jsstring) :
  forallb isDigitOrPeriod (TransferForm.onlyDigitsAndPeriods text) = true.
Proof.
  unfold TransferForm.onlyDigitsAndPeriods. apply forallb_forall.
  intros c Hc. apply filter_In in Hc. exact (proj2 Hc).
Qed.


(** X7: the amount rule of both forms rejects every string that begins
    with a minus sign, whatever follows, and every string made of white
    space only, the empty one included. *)
Theorem amount_rule_rejects_minus_and_blank :
  (forall r : jsstring,
      TransferForm.amountCheck (@cons codeunit 45%N r) = false
      /\ StripeTransferForm.amountCheck (@cons codeunit 45%N r) = false)
  /\ (forall s : jsstring,
         forallb isStrWhiteSpaceChar s = true ->
         TransferForm.amountCheck s = false
         /\ StripeTransferForm.amountCheck s = false).
Proof.
  split.
  - intros r.
    assert (H : TransferForm.amountCheck (@cons codeunit 45%N r) = false).
    { unfold TransferForm.amountCheck, Number.
      destruct (trim_cons 45%N r eq_refl) as [r' ->].
      assert (Hn : nonDecimalIntegerLiteral (@cons codeunit 45%N r') = None)
        by (destruct r'; reflexivity).
      rewrite Hn. cbn [N.eqb Pos.eqb].
      destruct (strUnsignedDecimalLiteral_cases true r')
        as [[_ ->] | [-> | (m & e & ->)]]; reflexivity. }
    split; exact H.
  - intros s Hs.
    assert (H : TransferForm.amountCheck s = false).
    { unfold TransferForm.amountCheck, Number, trim.
      rewrite (trimStart_all_white s Hs). reflexivity. }
    split; exact H.
Qed.

Lemma amount_rule_rejects_minus_and_blank_witness :
  TransferForm.amountCheck (js "-12.50") = false
  /\ TransferForm.amountCheck (js "   ") = false.
Proof.
  destruct amount_rule_rejects_minus_and_blank as [Hm Hb].
  split; [exact (proj1 (Hm (js "12.50"))) |].
  exact (proj1 (Hb (js "   ") eq_refl)).
Defined.

(** ** The tabbed wizard (TransferForm.tsx of part_000) *)

Lemma resolver_inl (tab : TransferType) (v d : FormValues) :
  resolver tab v = inl d ->
  wellFormed tab v = true
  /\ d = match tab with
         | domestic => domesticData v
         | international => internationalData v
         end.
Proof.
  intros Hr. destruct (wellFormed tab v) eqn:Hwf.
  - split; [reflexivity |].
    destruct tab; unfold resolver, zodResolver in Hr.
    + destruct (object_status v _ _ (domesticShape_implements v)) as [Hok _].
      unfold domesticFormSchema in Hr. rewrite (Hok Hwf) in Hr.
      cbn in Hr. congruence.
    + destruct (object_status v _ _ (internationalShape_implements v))
        as [Hok _].
      unfold internationalFormSchema in Hr. rewrite (Hok Hwf) in Hr.
      cbn in Hr. congruence.
  - destruct (resolver_invalid tab v Hwf) as (errs & He & _). congruence.
Qed.

Lemma data_is_committed (tab : TransferType) (v : FormValues) :
  wellFormed tab v = true ->
  committed match tab with
            | domestic => domesticData v
            | international => internationalData v
            end = true
  /\ draftOf tab match tab with
                 | domestic => domesticData v
                 | international => internationalData v
                 end = true.
Proof.
  destruct v as [tt rn an ro bn am de ib sw ba bc cu us sa sk].
  destruct tab; unfold wellFormed, committed;
    cbn [fieldRules forallb snd transferType domesticData internationalData
         isVariant];
    (destruct tt as [[|] |]; cbn [TransferType_eqb andb];
     try discriminate; intros H; split; [| reflexivity];
     unfold wellFormed; cbn [fieldRules forallb snd isVariant transferType
                             TransferType_eqb andb];
     cbn in H |- *; rewrite H; reflexivity).
Qed.

Lemma transferType_setValue (f : Field) (x : jsstring) (v : FormValues) :
  transferType (setValue f x v) = transferType v.
Proof. destruct f; reflexivity. Qed.

Lemma presentFor_setValue (t : TransferType) (f : Field) (x : jsstring)
      (v : FormValues) :
  presentFor t v = true -> presentFor t (setValue f x v) = true.
Proof.
  destruct v as [tt rn an ro bn am de ib sw ba bc cu us sa sk].
  unfold presentFor.
  destruct t, f; cbn; intros H; try exact H;
    repeat match goal with
           | H : context [given ?o] |- _ => destruct o; cbn in H
           end;
    try discriminate; reflexivity.
Qed.

Lemma amountClean_setValue (f : Field) (x : jsstring) (v : FormValues) :
  amountClean v = true ->
  amountClean
    (setValue f match f with
                | F_amount => onlyDigitsAndPeriods x
                | _ => x
                end v) = true.
Proof.
  intros H. destruct f; try exact H.
  unfold amountClean. cbn [setValue with_amount amount].
  apply onlyDigitsAndPeriods_clean.
Qed.

Lemma formShaped_setValue (t : TransferType) (f : Field) (x : jsstring)
      (v : FormValues) :
  rendered t f = true ->
  formShaped t v = true ->
  formShaped t (setValue f match f with
                           | F_amount => onlyDigitsAndPeriods x
                           | _ => x
                           end v) = true.
Proof.
  intros Hr. unfold formShaped. rewrite !andb_true_iff.
  intros [[[Hv Hp] Hd] Ha]. repeat split.
  - now rewrite transferType_setValue.
  - now apply presentFor_setValue.
  - now apply draftOf_setValue.
  - now apply amountClean_setValue.
Qed.

Lemma formShaped_tabValues (t : TransferType) (r a d b : jsstring) :
  forallb isDigitOrPeriod a = true ->
  formShaped t (tabValues t r a d b) = true.
Proof.
  intros Ha. destruct t; unfold formShaped, amountClean; cbn; now rewrite Ha.
Qed.

Lemma formShaped_amount (t : TransferType) (v : FormValues) :
  formShaped t v = true ->
  forallb isDigitOrPeriod (or_empty (amount v)) = true.
Proof.
  unfold formShaped, amountClean. rewrite !andb_true_iff.
  intros [_ Ha]. destruct (amount v) as [s |]; [| discriminate].
  now rewrite or_empty_Some.
Qed.

Lemma TransferType_eqb_eq (a b : TransferType) :
  TransferType_eqb a b = true -> a = b.
Proof. destruct a, b; (reflexivity || discriminate). Qed.

(** Every event keeps the invariant of the tabbed wizard. *)
Lemma dispatch_keeps_tabbedInvariant (e : Event) (st : State) :
  tabbedInvariant st -> tabbedInvariant (dispatch e st).
Proof.
  intros H. unfold dispatch.
  destruct e as [f text | value | | | | |];
    destruct (step st) eqn:Hstep;
    try exact H;
    pose proof H as (Hv & Hd & He & Hs & Hf).
  - (* Change *)
    destruct (rendered (activeTab st) f) eqn:Hr; [| exact H].
    unfold tabbedInvariant.
    cbn [setForm onChange activeTab form_ values defaultValues errors
         isSubmitted step formData].
    repeat split; try assumption;
      try (now apply formShaped_setValue);
      try (intros Hsub; rewrite Hsub; exact (He Hsub));
      try (rewrite Hstep; discriminate).
  - (* TabChange *)
    destruct (TransferType_eqb value (activeTab st)) eqn:E.
    + apply TransferType_eqb_eq in E. subst value. exact H.
    + unfold tabbedInvariant.
      cbn [tabEffect handleTabChange setActiveTab setForm reset activeTab
           form_ values defaultValues errors isSubmitted step formData].
      repeat split; try assumption;
        try (apply formShaped_tabValues; exact (formShaped_amount _ _ Hv));
        try (rewrite Hstep; discriminate).
  - (* Submit *)
    unfold handleSubmit.
    destruct (resolver (activeTab st) (values (form_ st))) as [d | errs] eqn:Hr.
    + destruct (resolver_inl _ _ _ Hr) as [Hwf Hdata].
      destruct (data_is_committed _ _ Hwf) as [Hc _].
      unfold tabbedInvariant.
      cbn [onSubmit setStep setFormData setForm activeTab form_ values
           defaultValues errors isSubmitted step formData].
      repeat split; try assumption; try discriminate.
      intros d' Hd'. inversion Hd'; subst d'. rewrite Hdata. exact Hc.
    + unfold tabbedInvariant.
      cbn [setForm activeTab form_ values defaultValues errors isSubmitted
           step formData].
      repeat split; try assumption; try discriminate;
        try (rewrite Hstep; discriminate).
  - (* Confirm *)
    destruct (formData st); exact H.
  - (* Edit *)
    destruct (formData st) eqn:Hfd; [| exact H].
    unfold tabbedInvariant.
    cbn [setStep activeTab form_ step formData].
    repeat split; try assumption; try discriminate.
    rewrite Hfd. exact Hf.
  - (* NewTransfer *)
    unfold tabbedInvariant.
    cbn [handleNewTransfer setFormData setStep setForm reset activeTab form_
         values defaultValues errors isSubmitted step formData].
    repeat split; try assumption; discriminate.
  - (* Timeout, in each step *)
    destruct (timeouts st); [exact H |].
    unfold tabbedInvariant.
    cbn [timeoutCallback setStep activeTab form_ step formData].
    repeat split; try assumption; discriminate.
  - destruct (timeouts st); [exact H |].
    unfold tabbedInvariant.
    cbn [timeoutCallback setStep activeTab form_ step formData].
    repeat split; try assumption; discriminate.
  - destruct (timeouts st); [exact H |].
    unfold tabbedInvariant.
    cbn [timeoutCallback setStep activeTab form_ step formData].
    repeat split; try assumption; discriminate.
Qed.

Lemma mount_tabbedInvariant : tabbedInvariant mount.
Proof. repeat split; try reflexivity; discriminate. Qed.

Lemma run_keeps_tabbedInvariant (es : list Event) :
  forall st, tabbedInvariant st -> tabbedInvariant (run es st).
Proof.
  induction es as [| e es IH]; intros st H; [exact H |].
  cbn [run fold_left]. apply IH, dispatch_keeps_tabbedInvariant, H.
Qed.

Lemma run_snoc (es : list Event) (e : Event) (st : State) :
  run (es ++ [e]) st = dispatch e (run es st).
Proof. unfold run. rewrite fold_left_app. reflexivity. Qed.

Lemma committed_renders (d : FormValues) :
  committed d = true -> exists rows, TransferSummary d = Some rows.
Proof.
  unfold committed, wellFormed, TransferSummary.
  destruct d as [tt rn an ro bn am de ib sw ba bc cu us sa sk].
  cbn [transferType accountNumber iban].
  destruct tt as [[|] |]; [| | discriminate];
    cbn [fieldRules forallb snd andb]; rewrite !andb_true_iff;
    intros [H _]; decompose [and] H; clear H.
  - destruct an; [eauto | discriminate].
  - destruct ib; [eauto | discriminate].
Qed.

(** X8: at every moment the tabbed form holds [transferType] equal to
    the active tab, a string in every field of the active variant, no
    key of the other variant or of Stripe, and an amount made of digits
    and periods only. *)
Theorem form_values_always_fit_the_active_tab (es : list Event) :
  transferType (values (form_ (run es mount)))
  = Some (activeTab (run es mount))
  /\ presentFor (activeTab (run es mount)) (values (form_ (run es mount)))
     = true
  /\ draftOf (activeTab (run es mount)) (values (form_ (run es mount)))
     = true
  /\ amountClean (values (form_ (run es mount))) = true.
Proof.
  destruct (run_keeps_tabbedInvariant es mount mount_tabbedInvariant)
    as (Hv & _).
  unfold formShaped in Hv. rewrite !andb_true_iff in Hv.
  destruct Hv as [[[Ht Hp] Hd] Ha]. repeat split; try assumption.
  unfold isVariant in Ht.
  destruct (transferType (values (form_ (run es mount)))) as [t |];
    [| discriminate].
  now rewrite (TransferType_eqb_eq _ _ Ht).
Qed.

(** X9: whenever the tabbed wizard holds a committed draft, that draft
    names a variant, satisfies every rule of that variant and carries
    the keys of that variant only, so the summary of it renders; and in
    step [summary] there always is a committed draft. *)
Theorem committed_draft_is_valid_and_renders (es : list Event) :
  (forall d,
      formData (run es mount) = Some d ->
      committed d = true /\ exists rows, TransferSummary d = Some rows)
  /\ (step (run es mount) = summary ->
      exists d, formData (run es mount) = Some d).
Proof.
  destruct (run_keeps_tabbedInvariant es mount mount_tabbedInvariant)
    as (_ & _ & _ & Hs & Hf).
  split.
  - intros d Hd. split; [exact (Hf d Hd) |].
    apply committed_renders, (Hf d Hd).
  - intros Hstep. specialize (Hs Hstep).
    destruct (formData (run es mount)) as [d |]; [eauto | congruence].
Qed.

Lemma committed_draft_is_valid_and_renders_witness :
  exists rows,
    TransferSummary (with_description [] johnDoe) = Some rows.
Proof.
  destruct (committed_draft_is_valid_and_renders (typingJohnDoe ++ [Submit]))
    as [H _].
  exact (proj2 (H (with_description [] johnDoe) eq_refl)).
Defined.

Lemma dispatch_without_submit (e : Event) (st : State) :
  e <> Submit ->
  isSubmitted (form_ st) = false ->
  errors (form_ st) = [] ->
  isSubmitted (form_ (dispatch e st)) = false
  /\ errors (form_ (dispatch e st)) = [].
Proof.
  intros He Hs Herr. unfold dispatch.
  destruct e as [f text | value | | | | |]; try congruence;
    destruct (step st);
    try (split; assumption);
    try (destruct (formData st); split; assumption);
    try (destruct (timeouts st); split; assumption).
  - destruct (rendered (activeTab st) f); [| split; assumption].
    cbn [setForm onChange form_ isSubmitted errors]. rewrite Hs.
    split; [reflexivity | exact Herr].
  - destruct (TransferType_eqb value (activeTab st));
      [split; assumption | split; reflexivity].
  - split; reflexivity.
Qed.

(** X10: as long as the form has not been submitted it shows no
    validation message, whatever is typed and whichever tab is chosen. *)
Theorem no_error_before_the_first_submit (es : list Event) :
  ~ In Submit es ->
  errors (form_ (run es mount)) = []
  /\ isSubmitted (form_ (run es mount)) = false.
Proof.
  assert (H : forall st,
             ~ In Submit es ->
             isSubmitted (form_ st) = false ->
             errors (form_ st) = [] ->
             errors (form_ (run es st)) = []
             /\ isSubmitted (form_ (run es st)) = false).
  { induction es as [| e es IH]; intros st Hn Hs He; [split; assumption |].
    cbn [run fold_left].
    destruct (dispatch_without_submit e st) as [Hs' He']; try assumption.
    - intros ->. apply Hn. now left.
    - apply IH; try assumption. intros Hin. apply Hn. now right. }
  intros Hn. apply H; [exact Hn | reflexivity | reflexivity].
Qed.

Lemma no_error_before_the_first_submit_witness :
  errors (form_ (run typingJohnDoe mount)) = [].
Proof.
  apply no_error_before_the_first_submit.
  cbn. intuition discriminate.
Defined.

Lemma errorFor_filter_other (name n : string) (errs : FieldErrors) :
  errorFor n (filter (fun nm => negb (String.eqb (fst nm) name)) errs)
  = if String.eqb name n then None else errorFor n errs.
Proof.
  induction errs as [| [k m] errs IH]; cbn [filter errorFor fst].
  - destruct (String.eqb name n); reflexivity.
  - destruct (String.eqb k name) eqn:Ek; cbn [negb].
    + apply String.eqb_eq in Ek. subst k. rewrite IH.
      destruct (String.eqb name n); reflexivity.
    + cbn [errorFor]. rewrite IH.
      destruct (String.eqb k n) eqn:Ekn; [| reflexivity].
      apply String.eqb_eq in Ekn. subst k.
      rewrite String.eqb_sym in Ek. now rewrite Ek.
Qed.

Lemma errorFor_setError (name n : string) (e : option string)
      (errs : FieldErrors) :
  errorFor n (setError name e errs)
  = if String.eqb name n then e else errorFor n errs.
Proof.
  unfold setError. destruct e as [m |].
  - rewrite errorFor_app, errorFor_filter_other.
    destruct (String.eqb name n); [reflexivity |].
    destruct (errorFor n errs); reflexivity.
  - apply errorFor_filter_other.
Qed.

(** X11: once the form has been submitted, changing a field
    re-validates that field alone: its error becomes what the resolver
    now reports for it, that is none exactly when the field satisfies
    its rule, and the errors of all other fields stay as they were. *)
Theorem change_after_submit_revalidates_the_field
        (st : State) (f : Field) (text : jsstring) :
  step st = form ->
  rendered (activeTab st) f = true ->
  isSubmitted (form_ st) = true ->
  (forall rule,
      In (fieldName f, rule) (fieldRules (activeTab st)) ->
      errorFor (fieldName f) (errors (form_ (dispatch (Change f text) st)))
      = None
      <-> rule (values (form_ (dispatch (Change f text) st))) = true)
  /\ (forall name,
         name <> fieldName f ->
         errorFor name (errors (form_ (dispatch (Change f text) st)))
         = errorFor name (errors (form_ st))).
Proof.
  intros Hs Hr Hsub. unfold dispatch. rewrite Hs, Hr.
  cbn [setForm onChange form_ errors values]. rewrite Hsub. split.
  - intros rule Hin. rewrite errorFor_setError, String.eqb_refl.
    now apply resolver_errors.
  - intros name Hn. rewrite errorFor_setError.
    destruct (String.eqb (fieldName f) name) eqn:E; [| reflexivity].
    apply String.eqb_eq in E. congruence.
Qed.

Lemma change_after_submit_revalidates_the_field_witness :
  errorFor "recipientName"
           (errors (form_ (run [Submit; Change F_recipientName (js "John Doe")]
                               mount))) = None
  /\ errorFor "accountNumber"
              (errors (form_ (run [Submit;
                                   Change F_recipientName (js "John Doe")]
                                  mount)))
     = errorFor "accountNumber" (errors (form_ (run [Submit] mount))).
Proof.
  destruct (change_after_submit_revalidates_the_field
              (run [Submit] mount) F_recipientName (js "John Doe"))
    as [H1 H2]; [reflexivity | reflexivity | reflexivity |].
  split.
  - apply (H1 (fun v => minLength 2 (recipientName v)));
      [cbn; tauto | reflexivity].
  - apply H2. discriminate.
Defined.

(** X12: going to the summary and back: after Submit on a well-formed
    draft and then Edit, the wizard is in step [form] again on the same
    tab with the same form values, the committed draft is kept, and
    submitting again commits the same draft. *)
Theorem submit_then_edit_keeps_the_draft (st : State) :
  step st = form ->
  draftOf (activeTab st) (values (form_ st)) = true ->
  wellFormed (activeTab st) (values (form_ st)) = true ->
  step (run [Submit; Edit] st) = form
  /\ activeTab (run [Submit; Edit] st) = activeTab st
  /\ values (form_ (run [Submit; Edit] st)) = values (form_ st)
  /\ formData (run [Submit; Edit] st) = Some (values (form_ st))
  /\ step (run [Submit; Edit; Submit] st) = summary
  /\ formData (run [Submit; Edit; Submit] st) = Some (values (form_ st)).
Proof.
  intros Hs Hd Hwf. cbn [run fold_left].
  assert (H1 : dispatch Submit st
               = onSubmit (values (form_ st))
                   (setForm {| values := values (form_ st);
                               defaultValues := defaultValues (form_ st);
                               errors := []; isSubmitted := true |} st)).
  { unfold dispatch. rewrite Hs. unfold handleSubmit.
    now rewrite (resolver_valid _ _ Hd Hwf). }
  rewrite H1.
  cbn [dispatch onSubmit setStep setFormData setForm step formData activeTab
       form_ values].
  unfold handleSubmit. cbn [values]. rewrite (resolver_valid _ _ Hd Hwf).
  repeat split.
Qed.

Lemma submit_then_edit_keeps_the_draft_witness :
  step (run [Submit; Edit] (editing domestic johnDoe)) = form
  /\ formData (run [Submit; Edit; Submit] (editing domestic johnDoe))
     = Some johnDoe.
Proof.
  destruct (submit_then_edit_keeps_the_draft (editing domestic johnDoe))
    as (H1 & _ & _ & _ & _ & H6); [reflexivity | reflexivity | reflexivity |].
  split; [exact H1 | exact H6].
Defined.

(** X13: a pending timer is not cancelled by Edit: after Confirm, Edit
    and the expiry of the timer the wizard is in step [success] although
    the user had gone back to the form; the form values are untouched
    and the toast shows the amount of the draft that was confirmed. *)
Theorem timer_fires_after_edit (st : State) (d : FormValues) :
  step st = summary ->
  formData st = Some d ->
  timeouts st = [] ->
  step (run [Confirm; Edit] st) = form
  /\ step (run [Confirm; Edit; Timeout] st) = success
  /\ values (form_ (run [Confirm; Edit; Timeout] st)) = values (form_ st)
  /\ formData (run [Confirm; Edit; Timeout] st) = Some d
  /\ timeouts (run [Confirm; Edit; Timeout] st) = []
  /\ toasts (run [Confirm; Edit; Timeout] st)
     = toasts st
       ++ [ {| title := "Transfer Successful!";
               toastDescription :=
                 js "Your transfer of $" ++ amountText (Some d)
                 ++ js " has been initiated.";
               variant := "success" |} ].
Proof.
  intros Hs Hd Ht. cbn [run fold_left].
  rewrite (dispatch_Confirm st d Hs Hd).
  assert (E2 : dispatch Edit (handleConfirmTransfer st)
               = setStep form (handleConfirmTransfer st)).
  { unfold dispatch. cbn [handleConfirmTransfer step formData].
    now rewrite Hs, Hd. }
  rewrite E2.
  assert (E3 : dispatch Timeout (setStep form (handleConfirmTransfer st))
               = timeoutCallback (Some d)
                   {| activeTab := activeTab st; step := form;
                      formData := formData st; form_ := form_ st;
                      timeouts := []; toasts := toasts st |}).
  { unfold dispatch.
    cbn [setStep handleConfirmTransfer step timeouts activeTab formData
         form_ toasts].
    rewrite Ht, Hd. reflexivity. }
  rewrite E3.
  cbn [timeoutCallback setStep handleConfirmTransfer step formData form_
       timeouts toasts].
  repeat split. exact Hd.
Qed.

Lemma timer_fires_after_edit_witness :
  step (run [Confirm; Edit; Timeout]
            (dispatch Submit (editing domestic johnDoe))) = success.
Proof.
  destruct (timer_fires_after_edit
              (dispatch Submit (editing domestic johnDoe)) johnDoe)
    as (_ & H & _); [reflexivity | reflexivity | reflexivity |].
  exact H.
Defined.

Lemma dispatch_noTabChange (e : Event) (st : State) :
  match e with TabChange _ => false | _ => true end = true ->
  defaultValues (form_ (dispatch e st)) = defaultValues (form_ st)
  /\ activeTab (dispatch e st) = activeTab st.
Proof.
  intros He. unfold dispatch.
  destruct e as [f text | value | | | | |]; try discriminate He;
    destruct (step st);
    try (split; reflexivity);
    try (destruct (formData st); split; reflexivity);
    try (destruct (timeouts st); split; reflexivity).
  - destruct (rendered (activeTab st) f); split; reflexivity.
  - unfold handleSubmit.
    destruct (resolver (activeTab st) (values (form_ st)));
      split; reflexivity.
Qed.

Lemma run_noTabChange (es : list Event) :
  forall st,
    noTabChange es = true ->
    defaultValues (form_ (run es st)) = defaultValues (form_ st)
    /\ activeTab (run es st) = activeTab st.
Proof.
  induction es as [| e es IH]; intros st Hn; [split; reflexivity |].
  cbn [noTabChange forallb] in Hn. apply andb_true_iff in Hn as [He Hes].
  cbn [run fold_left].
  destruct (IH (dispatch e st) Hes) as [H1 H2].
  destruct (dispatch_noTabChange e st He) as [H3 H4].
  split; [rewrite <- H3; exact H1 | rewrite <- H4; exact H2].
Qed.

(** X14: New Transfer puts the form back to its default values, which
    are the values of the last reset: after any run without a tab
    change that ends in step [success], New Transfer gives step [form],
    no committed draft, no error, and form values equal to the default
    values the run started with; so in a wizard whose tab was never
    changed every field is empty again.  A timer that is still pending
    is left pending. *)
Theorem new_transfer_restores_the_default_values
        (st : State) (es : list Event) :
  noTabChange es = true ->
  step (run es st) = success ->
  step (run (es ++ [NewTransfer]) st) = form
  /\ formData (run (es ++ [NewTransfer]) st) = None
  /\ errors (form_ (run (es ++ [NewTransfer]) st)) = []
  /\ values (form_ (run (es ++ [NewTransfer]) st))
     = defaultValues (form_ st)
  /\ activeTab (run (es ++ [NewTransfer]) st) = activeTab st
  /\ timeouts (run (es ++ [NewTransfer]) st) = timeouts (run es st).
Proof.
  intros Hn Hs. destruct (run_noTabChange es st Hn) as [Hd Ha].
  rewrite run_snoc. unfold dispatch. rewrite Hs.
  cbn [handleNewTransfer setFormData setStep setForm reset step formData
       form_ values errors activeTab timeouts].
  repeat split; assumption.
Qed.

Lemma new_transfer_restores_the_default_values_witness :
  values (form_ (run ((typingJohnDoe ++ [Submit; Confirm; Timeout])
                      ++ [NewTransfer]) mount))
  = tabValues domestic [] [] [] [].
Proof.
  destruct (new_transfer_restores_the_default_values
              mount (typingJohnDoe ++ [Submit; Confirm; Timeout]))
    as (_ & _ & _ & H & _); [reflexivity | reflexivity |].
  exact H.
Defined.

(** X15: after a tab change, New Transfer does not empty the common
    fields: it brings [recipientName], [amount], [description] and
    [bankName] back to the values they had when the tab was last
    changed (the tab effect made them the default values), with the
    fields of the active variant at their defaults. *)
Theorem new_transfer_after_tab_change_keeps_common_fields
        (st : State) (t : TransferType) (es : list Event) :
  step st = form ->
  t <> activeTab st ->
  noTabChange es = true ->
  step (run (TabChange t :: es) st) = success ->
  values (form_ (run (TabChange t :: es ++ [NewTransfer]) st))
  = tabValues t (or_empty (recipientName (values (form_ st))))
              (or_empty (amount (values (form_ st))))
              (or_empty (description (values (form_ st))))
              (or_empty (bankName (values (form_ st)))).
Proof.
  intros Hs Ht Hn Hsucc.
  change (run (TabChange t :: es ++ [NewTransfer]) st)
    with (run (es ++ [NewTransfer]) (dispatch (TabChange t) st)).
  change (run (TabChange t :: es) st)
    with (run es (dispatch (TabChange t) st)) in Hsucc.
  destruct (run_noTabChange es (dispatch (TabChange t) st) Hn) as [Hd _].
  rewrite run_snoc. unfold dispatch at 1. rewrite Hsucc.
  cbn [handleNewTransfer setFormData setStep setForm reset form_ values].
  rewrite Hd. unfold dispatch. rewrite Hs.
  assert (E : TransferType_eqb t (activeTab st) = false).
  { destruct t, (activeTab st); (reflexivity || congruence). }
  rewrite E. reflexivity.
Qed.

Lemma new_transfer_after_tab_change_keeps_common_fields_witness :
  recipientName
    (values (form_ (run (TabChange international
                         :: [Change F_iban (js "GB29NWBK60161331926819");
                             Change F_swiftCode (js "HSBCGB2L");
                             Change F_bankAddress (js "8 Canada Square");
                             Change F_bankCountry (js "United Kingdom");
                             Change F_recipientName (js "Jane Smith");
                             Submit; Confirm; Timeout]
                         ++ [NewTransfer])
                        (run typingJohnDoe mount))))
  = Some (js "John Doe").
Proof.
  rewrite (new_transfer_after_tab_change_keeps_common_fields
             (run typingJohnDoe mount) international);
    [reflexivity | reflexivity | discriminate | reflexivity | reflexivity].
Defined.

(** ** The schemas of the tabbed wizard *)

(** X16: the rules of the international fields, read on any values:
    the form reports no error on [iban] exactly when it is a string of
    at least 15 characters, on [swiftCode] exactly for 8 to 11
    characters, on [bankAddress] for at least 5, on [bankCountry] for
    at least 2, on [currency] for at least 3 and on [transferType]
    exactly when it is ["international"]; [description] never gets
    one. *)
Theorem international_field_rules (v : FormValues) :
  (errorFor "iban" (errorsOf (resolver international v)) = None
   <-> minLength 15 (iban v) = true)
  /\ (errorFor "swiftCode" (errorsOf (resolver international v)) = None
      <-> lengthBetween 8 11 (swiftCode v) = true)
  /\ (errorFor "bankAddress" (errorsOf (resolver international v)) = None
      <-> minLength 5 (bankAddress v) = true)
  /\ (errorFor "bankCountry" (errorsOf (resolver international v)) = None
      <-> minLength 2 (bankCountry v) = true)
  /\ (errorFor "currency" (errorsOf (resolver international v)) = None
      <-> minLength 3 (currency v) = true)
  /\ (errorFor "transferType" (errorsOf (resolver international v)) = None
      <-> transferType v = Some international)
  /\ errorFor "description" (errorsOf (resolver international v)) = None.
Proof.
  repeat split;
    try (apply (resolver_errors international v "iban"
                  (fun v => minLength 15 (iban v))); cbn; tauto);
    try (apply (resolver_errors international v "swiftCode"
                  (fun v => lengthBetween 8 11 (swiftCode v))); cbn; tauto);
    try (apply (resolver_errors international v "bankAddress"
                  (fun v => minLength 5 (bankAddress v))); cbn; tauto);
    try (apply (resolver_errors international v "bankCountry"
                  (fun v => minLength 2 (bankCountry v))); cbn; tauto);
    try (apply (resolver_errors international v "currency"
                  (fun v => minLength 3 (currency v))); cbn; tauto).
  - intros H.
    apply (resolver_errors international v "transferType"
             (fun v => isVariant international (transferType v))) in H;
      [| cbn; tauto].
    unfold isVariant in H. destruct (transferType v) as [[|] |];
      (reflexivity || discriminate).
  - intros H.
    apply (resolver_errors international v "transferType"
             (fun v => isVariant international (transferType v)));
      [cbn; tauto |].
    now rewrite H.
  - apply (resolver_errors international v "description" (fun _ => true));
      [cbn; tauto | reflexivity].
Qed.



(** ** The Stripe-enabled wizard (src/components/TransferForm.tsx) *)

Lemma stripe_data_of_shaped (v : FormValues) :
  stripeShaped v = true -> StripeTransferForm.internationalData v = v.
Proof.
  destruct v as [tt rn an ro bn am de ib sw ba bc cu us sa sk].
  unfold stripeShaped, present. cbn.
  destruct tt, an, ro, us; cbn;
    rewrite ?andb_false_r; intros H; try discriminate H; reflexivity.
Qed.

Lemma stripe_resolver_inl (v d : FormValues) :
  StripeTransferForm.resolver v = inl d ->
  d = StripeTransferForm.internationalData v
  /\ isValid (StripeTransferForm.internationalFormSchema v) = true.
Proof.
  unfold StripeTransferForm.resolver, zodResolver.
  destruct (isValid (StripeTransferForm.internationalFormSchema v));
    intros H; inversion H; split; reflexivity.
Qed.

Lemma stripeShaped_setValue (f : StripeWizard.Field) (x : jsstring)
      (v : FormValues) :
  stripeShaped v = true -> stripeShaped (StripeWizard.setValue f x v) = true.
Proof.
  unfold stripeShaped, present. rewrite !andb_true_iff.
  intros H. decompose [and] H. clear H.
  destruct f; cbn; repeat split; (assumption || reflexivity).
Qed.

Lemma stripeShaped_with_useStripe (b : bool) (v : FormValues) :
  stripeShaped v = true -> stripeShaped (with_useStripe b v) = true.
Proof.
  unfold stripeShaped, present. rewrite !andb_true_iff.
  intros H. decompose [and] H. clear H.
  cbn; repeat split; (assumption || reflexivity).
Qed.

(** Every event keeps the invariant of the Stripe-enabled wizard. *)
Lemma dispatch_keeps_stripeInvariant (e : StripeWizard.Event)
      (st : StripeWizard.State) :
  stripeInvariant st -> stripeInvariant (StripeWizard.dispatch e st).
Proof.
  intros H. unfold StripeWizard.dispatch.
  destruct e as [f text | checked | | | | |];
    destruct (StripeWizard.step st) eqn:Hstep;
    try exact H;
    pose proof H as (Hv & Hd & Hs & Hf).
  - destruct (StripeWizard.rendered st f); [| exact H].
    unfold stripeInvariant.
    cbn [StripeWizard.setForm onChange StripeWizard.form_ values
         defaultValues StripeWizard.step StripeWizard.formData].
    repeat split; try assumption;
      try (now apply stripeShaped_setValue);
      try (rewrite Hstep; discriminate);
      try match goal with
          | H0 : _ = Some ?d |- _ => destruct (Hf d H0); assumption
          end.
  - unfold stripeInvariant.
    cbn [StripeWizard.setForm onChange StripeWizard.form_ values
         defaultValues StripeWizard.step StripeWizard.formData].
    repeat split; try assumption;
      try (now apply stripeShaped_with_useStripe);
      try (rewrite Hstep; discriminate);
      try match goal with
          | H0 : _ = Some ?d |- _ => destruct (Hf d H0); assumption
          end.
  - unfold handleSubmit.
    destruct (StripeTransferForm.resolver
                (values (StripeWizard.form_ st))) as [d | errs] eqn:Hr.
    + destruct (stripe_resolver_inl _ _ Hr) as [Hdata _].
      rewrite (stripe_data_of_shaped _ Hv) in Hdata. subst d.
      unfold stripeInvariant.
      cbn [StripeWizard.onSubmit StripeWizard.setStep
           StripeWizard.setFormData StripeWizard.setForm
           StripeWizard.form_ values defaultValues StripeWizard.step
           StripeWizard.formData].
      repeat split; try assumption; try discriminate;
        match goal with
        | H0 : Some _ = Some _ |- _ => inversion H0; subst; assumption
        end.
    + unfold stripeInvariant.
      cbn [StripeWizard.setForm StripeWizard.form_ values defaultValues
           StripeWizard.step StripeWizard.formData].
      repeat split; try assumption;
        try (rewrite Hstep; discriminate);
        try match goal with
            | H0 : _ = Some ?d |- _ => destruct (Hf d H0); assumption
            end.
  - destruct (StripeWizard.formData st); exact H.
  - destruct (StripeWizard.formData st) eqn:Hfd; [| exact H].
    unfold stripeInvariant.
    cbn [StripeWizard.setStep StripeWizard.form_ StripeWizard.step
         StripeWizard.formData].
    repeat split; try assumption; try discriminate;
      match goal with
      | H0 : _ = Some ?d |- _ =>
          rewrite Hfd in H0; destruct (Hf d H0); assumption
      end.
  - unfold stripeInvariant.
    cbn [StripeWizard.handleNewTransfer StripeWizard.setFormData
         StripeWizard.setStep StripeWizard.setForm reset
         StripeWizard.form_ values defaultValues StripeWizard.step
         StripeWizard.formData].
    rewrite Hd. repeat split; try reflexivity; discriminate.
  - destruct (StripeWizard.timeouts st); [exact H |].
    unfold stripeInvariant.
    cbn [StripeWizard.timeoutCallback StripeWizard.setStep
         StripeWizard.form_ StripeWizard.step StripeWizard.formData].
    repeat split; try assumption; try discriminate;
      match goal with
      | H0 : _ = Some ?d |- _ => destruct (Hf d H0); assumption
      end.
  - destruct (StripeWizard.timeouts st); [exact H |].
    unfold stripeInvariant.
    cbn [StripeWizard.timeoutCallback StripeWizard.setStep
         StripeWizard.form_ StripeWizard.step StripeWizard.formData].
    repeat split; try assumption; try discriminate;
      match goal with
      | H0 : _ = Some ?d |- _ => destruct (Hf d H0); assumption
      end.
  - destruct (StripeWizard.timeouts st); [exact H |].
    unfold stripeInvariant.
    cbn [StripeWizard.timeoutCallback StripeWizard.setStep
         StripeWizard.form_ StripeWizard.step StripeWizard.formData].
    repeat split; try assumption; try discriminate;
      match goal with
      | H0 : _ = Some ?d |- _ => destruct (Hf d H0); assumption
      end.
Qed.

Lemma stripe_run_keeps_invariant (es : list StripeWizard.Event) :
  forall st, stripeInvariant st -> stripeInvariant (StripeWizard.run es st).
Proof.
  induction es as [| e es IH]; intros st H; [exact H |].
  cbn [StripeWizard.run fold_left].
  apply IH, dispatch_keeps_stripeInvariant, H.
Qed.

Lemma stripe_mount_invariant : stripeInvariant StripeWizard.mount.
Proof. repeat split; try reflexivity; discriminate. Qed.

Lemma stripe_run_snoc (es : list StripeWizard.Event) (e : StripeWizard.Event)
      (st : StripeWizard.State) :
  StripeWizard.run (es ++ [e]) st
  = StripeWizard.dispatch e (StripeWizard.run es st).
Proof. unfold StripeWizard.run. rewrite fold_left_app. reflexivity. Qed.



Lemma stripe_valid_is_well_formed (d : FormValues) :
  stripeShaped d = true ->
  StripeTransferForm.resolver d = inl d ->
  forallb (fun r => snd r d) stripeBaseRules = true
  /\ (usesStripe d = true ->
      minLength 3 (stripeAccountId d) = true
      /\ minLength 10 (stripePublishableKey d) = true).
Proof.
  intros Hs Hr.
  assert (Hp : present d = true).
  { unfold stripeShaped in Hs. rewrite !andb_true_iff in Hs. tauto. }
  destruct (stripe_resolver_inl _ _ Hr) as [_ Hval].
  destruct (stripe_schema_result d (stripe_base_not_aborted d Hp))
    as [_ Hv].
  rewrite Hval in Hv. symmetry in Hv.
  rewrite !andb_true_iff in Hv. destruct Hv as [[Hb H3] H10].
  split.
  - destruct (forallb (fun r => snd r d) stripeBaseRules) eqn:E;
      [reflexivity |].
    destruct (object_status d _ _ (stripeShape_implements d)) as [_ Hbad].
    specialize (Hbad E). unfold isValid in Hb.
    destruct (status _); congruence.
  - intros Hu. rewrite Hu in H3, H10. cbn [andb] in H3, H10.
    rewrite !negb_true_iff, !negb_false_iff in *. split; assumption.
Qed.

(** X19: every draft the Stripe-enabled wizard commits is accepted by
    the schema as it is; its IBAN has at least 15 characters and, when
    it uses Stripe, its Stripe fields meet their minimums.  Having no
    [transferType], it is shown by the summary as an international
    transfer with the IBAN masked. *)
Theorem stripe_committed_draft_is_valid_and_renders
        (es : list StripeWizard.Event) (d : FormValues) :
  StripeWizard.formData (StripeWizard.run es StripeWizard.mount) = Some d ->
  StripeTransferForm.resolver d = inl d
  /\ (usesStripe d = true ->
      minLength 3 (stripeAccountId d) = true
      /\ minLength 10 (stripePublishableKey d) = true)
  /\ exists i rows,
      iban d = Some i
      /\ 15 <= length i
      /\ TransferSummary d
         = Some ({| label := "Transfer Type:";
                    shown := Some (js "International Transfer") |} :: rows)
      /\ In {| label := "IBAN:"; shown := Some (maskedIban i) |} rows.
Proof.
  intros Hd.
  destruct (stripe_run_keeps_invariant es _ stripe_mount_invariant)
    as (_ & _ & _ & Hf).
  destruct (Hf d Hd) as [Hs Hr].
  destruct (stripe_valid_is_well_formed d Hs Hr) as [Hb Hst].
  split; [exact Hr | split; [exact Hst |]].
  rewrite forallb_forall in Hb.
  assert (Hi : minLength 15 (iban d) = true).
  { apply (Hb ("iban"%string, fun v => minLength 15 (iban v))).
    cbn. tauto. }
  assert (Ht : transferType d = None).
  { unfold stripeShaped in Hs. rewrite !andb_true_iff in Hs.
    decompose [and] Hs.
    destruct (transferType d); [discriminate | reflexivity]. }
  unfold minLength in Hi. destruct (iban d) as [i |] eqn:Ei; [| discriminate].
  apply Nat.leb_le in Hi.
  exists i. eexists. split; [reflexivity | split; [exact Hi |]].
  unfold TransferSummary. rewrite Ht, Ei. split; [reflexivity |].
  cbn. tauto.
Qed.

Lemma stripe_committed_draft_is_valid_and_renders_witness :
  exists i rows,
    iban (janeSmith true (js "acct_1234") (js "pk_test_0123456789")) = Some i
    /\ 15 <= length i
    /\ TransferSummary (janeSmith true (js "acct_1234")
                                  (js "pk_test_0123456789"))
       = Some ({| label := "Transfer Type:";
                  shown := Some (js "International Transfer") |} :: rows)
    /\ In {| label := "IBAN:"; shown := Some (maskedIban i) |} rows.
Proof.
  assert (E : StripeWizard.formData
                (StripeWizard.run (typingJaneSmith ++ [StripeWizard.Submit])
                                  StripeWizard.mount)
              = Some (with_currency (js "USD")
                        (with_description []
                           (janeSmith true (js "acct_1234")
                                      (js "pk_test_0123456789")))))
    by reflexivity.
  destruct (stripe_committed_draft_is_valid_and_renders _ _ E)
    as (_ & _ & i & rows & Hi & Hl & Hr & Hin).
  exists i. eexists. split; [exact Hi | split; [exact Hl |]].
  split; [reflexivity |].
  cbn in Hi. inversion Hi; subst i. cbn. tauto.
Defined.

(** X20: in the Stripe-enabled wizard New Transfer resets every field to
    its initial default, whatever happened before: from step [success]
    it gives step [form], no committed draft, no error and the initial
    default values (all empty, [currency] ["USD"], [useStripe]
    false). *)
Theorem stripe_new_transfer_resets_every_field
        (es : list StripeWizard.Event) :
  StripeWizard.step (StripeWizard.run es StripeWizard.mount) = success ->
  StripeWizard.step
    (StripeWizard.run (es ++ [StripeWizard.NewTransfer]) StripeWizard.mount)
  = form
  /\ StripeWizard.formData
       (StripeWizard.run (es ++ [StripeWizard.NewTransfer])
                         StripeWizard.mount) = None
  /\ errors (StripeWizard.form_
               (StripeWizard.run (es ++ [StripeWizard.NewTransfer])
                                 StripeWizard.mount)) = []
  /\ values (StripeWizard.form_
               (StripeWizard.run (es ++ [StripeWizard.NewTransfer])
                                 StripeWizard.mount))
     = StripeTransferForm.defaultValues.
Proof.
  intros Hs.
  destruct (stripe_run_keeps_invariant es _ stripe_mount_invariant)
    as (_ & Hd & _).
  rewrite stripe_run_snoc. unfold StripeWizard.dispatch. rewrite Hs.
  cbn [StripeWizard.handleNewTransfer StripeWizard.setFormData
       StripeWizard.setStep StripeWizard.setForm reset StripeWizard.step
       StripeWizard.formData StripeWizard.form_ values errors].
  repeat split. exact Hd.
Qed.

Lemma stripe_new_transfer_resets_every_field_witness :
  values (StripeWizard.form_
            (StripeWizard.run
               ((typingJaneSmith
                 ++ [StripeWizard.Submit; StripeWizard.Confirm;
                     StripeWizard.Timeout])
                ++ [StripeWizard.NewTransfer])
               StripeWizard.mount))
  = StripeTransferForm.defaultValues.
Proof.
  destruct (stripe_new_transfer_resets_every_field
              (typingJaneSmith
               ++ [StripeWizard.Submit; StripeWizard.Confirm;
                   StripeWizard.Timeout]))
    as (_ & _ & _ & H); [reflexivity |].
  exact H.
Defined.

(** X21: unchecking [useStripe] does not clear the Stripe fields, and
    the schema then does not look at them: when the non-Stripe fields
    are valid, unchecking and submitting commits the form values with
    [useStripe] false and the Stripe fields as they were typed,
    whatever their length. *)
Theorem unchecked_stripe_fields_are_committed_unvalidated
        (st : StripeWizard.State) :
  StripeWizard.step st = form ->
  stripeShaped (values (StripeWizard.form_ st)) = true ->
  forallb (fun r => snd r (values (StripeWizard.form_ st))) stripeBaseRules
  = true ->
  StripeWizard.step
    (StripeWizard.run [StripeWizard.CheckedChange false; StripeWizard.Submit]
                      st) = summary
  /\ StripeWizard.formData
       (StripeWizard.run [StripeWizard.CheckedChange false;
                          StripeWizard.Submit] st)
     = Some (with_useStripe false (values (StripeWizard.form_ st)))
  /\ stripeAccountId (with_useStripe false (values (StripeWizard.form_ st)))
     = stripeAccountId (values (StripeWizard.form_ st))
  /\ stripePublishableKey
       (with_useStripe false (values (StripeWizard.form_ st)))
     = stripePublishableKey (values (StripeWizard.form_ st)).
Proof.
  intros Hs Hv Hb.
  remember (values (StripeWizard.form_ st)) as v eqn:Ev.
  assert (Hv' : stripeShaped (with_useStripe false v) = true)
    by now apply stripeShaped_with_useStripe.
  assert (Hp : present (with_useStripe false v) = true).
  { unfold stripeShaped in Hv'. rewrite !andb_true_iff in Hv'. tauto. }
  assert (Hr : StripeTransferForm.resolver (with_useStripe false v)
               = inl (with_useStripe false v)).
  { unfold StripeTransferForm.resolver, zodResolver.
    destruct (stripe_schema_result _ (stripe_base_not_aborted _ Hp))
      as [_ Hval].
    destruct (object_status (with_useStripe false v) _ _
                (stripeShape_implements (with_useStripe false v)))
      as [Hok _].
    rewrite (Hok Hb) in Hval. rewrite Hval.
    cbn [isValid status OK usesStripe useStripe with_useStripe andb negb].
    now rewrite (stripe_data_of_shaped _ Hv'). }
  cbn [StripeWizard.run fold_left].
  assert (E1 : StripeWizard.dispatch (StripeWizard.CheckedChange false) st
               = StripeWizard.setForm
                   (onChange StripeTransferForm.resolver "useStripe"
                             (with_useStripe false) (StripeWizard.form_ st))
                   st).
  { unfold StripeWizard.dispatch. now rewrite Hs. }
  rewrite E1. unfold StripeWizard.dispatch, handleSubmit.
  cbn -[StripeTransferForm.resolver with_useStripe].
  rewrite Hs, <- Ev, Hr.
  repeat split.
Qed.

Lemma unchecked_stripe_fields_are_committed_unvalidated_witness :
  StripeWizard.formData
    (StripeWizard.run
       [StripeWizard.CheckedChange false; StripeWizard.Submit]
       (StripeWizard.run
          (typingJaneSmith
           ++ [StripeWizard.Change StripeWizard.F_stripeAccountId (js "a")])
          StripeWizard.mount))
  = Some (with_currency (js "USD")
            (with_description []
               (janeSmith false (js "a") (js "pk_test_0123456789")))).
Proof.
  destruct (unchecked_stripe_fields_are_committed_unvalidated
              (StripeWizard.run
                 (typingJaneSmith
                  ++ [StripeWizard.Change StripeWizard.F_stripeAccountId
                                          (js "a")])
                 StripeWizard.mount))
    as (_ & H & _); [reflexivity | reflexivity | reflexivity |].
  exact H.
Defined.

(** ** The transfer service *)

Lemma digitValue_decimal (d : N) :
  (d < 10)%N -> digitValue 10 (48 + d)%N = Some d.
Proof.
  intros Hd. unfold digitValue.
  replace ((48 <=? 48 + d) && (48 + d <=? 57))%N with true.
  - replace (48 + d - 48)%N with d by lia.
    destruct (N.ltb_spec d 10); [reflexivity | lia].
  - symmetry. apply andb_true_iff. split; apply N.leb_le; lia.
Qed.

Lemma isDecimalDigit_decimal (d : N) :
  (d < 10)%N -> isDecimalDigit (48 + d)%N = true.
Proof.
  intros Hd. unfold isDecimalDigit.
  apply andb_true_iff. split; apply N.leb_le; lia.
Qed.

(** The digits [toDigits] puts in front of [acc]: at most [k] of them
    for a number below 10^k, and [digits] reads them back. *)
Lemma toDigits_spec (fuel : nat) :
  forall (k : nat) (n : N) (acc : jsstring),
    1 <= k <= fuel ->
    (n < 10 ^ N.of_nat k)%N ->
    exists ds,
      TransferService.toDigits fuel n acc = ds ++ acc
      /\ 1 <= length ds <= k
      /\ forallb isDecimalDigit ds = true
      /\ forall a c rest,
          digits 10 a c (ds ++ rest)
          = digits 10 (a * 10 ^ N.of_nat (length ds) + n)%N
                   (length ds + c) rest.
Proof.
  induction fuel as [| fuel IH]; intros k n acc [Hk1 Hk2] Hn; [lia |].
  cbn [TransferService.toDigits].
  assert (Hd : (n mod 10 < 10)%N) by (apply N.mod_lt; discriminate).
  assert (Hdm : n = (10 * (n / 10) + n mod 10)%N)
    by (apply N.div_mod; discriminate).
  destruct (N.eqb_spec (n / 10) 0) as [Hq | Hq].
  - exists [(48 + n mod 10)%N]. split; [reflexivity |].
    split; [cbn; lia |]. split.
    + cbn [forallb]. now rewrite isDecimalDigit_decimal.
    + intros a c rest. cbn [app digits length].
      rewrite digitValue_decimal by exact Hd.
      change (N.of_nat 1) with 1%N. rewrite N.pow_1_r.
      rewrite Hq, N.mul_0_r, N.add_0_l in Hdm. rewrite <- Hdm.
      reflexivity.
  - assert (Hk : 2 <= k).
    { destruct k as [| [| k]]; [lia | | lia].
      exfalso. apply Hq, N.div_small.
      change (N.of_nat 1) with 1%N in Hn. now rewrite N.pow_1_r in Hn. }
    assert (Hq' : (n / 10 < 10 ^ N.of_nat (k - 1))%N).
    { apply N.Div0.div_lt_upper_bound.
      replace (10 * 10 ^ N.of_nat (k - 1))%N with (10 ^ N.of_nat k)%N;
        [exact Hn |].
      replace (N.of_nat k) with (N.succ (N.of_nat (k - 1))) by lia.
      now rewrite N.pow_succ_r'. }
    destruct (IH (k - 1) (n / 10)%N ((48 + n mod 10)%N :: acc))
      as (ds & Hds & Hlen & Hdig & Hread); [lia | exact Hq' |].
    exists (ds ++ [(48 + n mod 10)%N]).
    split; [rewrite Hds, <- app_assoc; reflexivity |].
    split; [rewrite length_app; cbn [length]; lia |].
    split.
    + rewrite forallb_app, Hdig. cbn [forallb].
      now rewrite isDecimalDigit_decimal.
    + intros a c rest. rewrite <- app_assoc. cbn [app].
      rewrite Hread. cbn [digits].
      rewrite digitValue_decimal by exact Hd.
      rewrite length_app. cbn [length].
      replace (N.of_nat (length ds + 1)) with (N.succ (N.of_nat (length ds)))
        by lia.
      rewrite N.pow_succ_r'.
      f_equal; [| lia].
      rewrite Hdm at 3. generalize (n / 10)%N (n mod 10)%N.
      intros q r. lia.
Qed.

Lemma concat_repeat_singleton {A} (x : A) (n : nat) :
  concat (repeat [x] n) = repeat x n.
Proof. induction n as [| n IH]; [reflexivity |]. cbn. now rewrite IH. Qed.

Lemma digits_zeros (m : nat) :
  forall c rest,
    digits 10 0 c (repeat 48%N m ++ rest) = digits 10 0 (m + c) rest.
Proof.
  induction m as [| m IH]; intros c rest; [reflexivity |].
  cbn [repeat app digits]. change (digitValue 10 48%N) with (Some 0%N).
  cbn [N.mul N.add]. rewrite IH. f_equal. lia.
Qed.

Lemma firstn_concat_repeat {A} (x : A) (m : nat) :
  firstn m (concat (repeat [x] m)) = repeat x m.
Proof.
  rewrite concat_repeat_singleton. apply firstn_all2.
  rewrite repeat_length. lia.
Qed.

Lemma padStart_zero (s : jsstring) (n : nat) :
  TransferService.padStart s n (js "0") = repeat 48%N (n - length s) ++ s.
Proof.
  unfold TransferService.padStart. change (js "0") with [48%N].
  cbv beta iota zeta. f_equal. apply firstn_concat_repeat.
Qed.

(** The identifier of a draw below one million: its six digits. *)
Lemma createTransfer_id (draw : N) :
  (draw < 1000000)%N ->
  exists six,
    TransferService.id (TransferService.createTransfer draw)
    = js "TXN" ++ six
    /\ length six = 6
    /\ forallb isDecimalDigit six = true
    /\ digits 10 0 0 six = (draw, 6, []).
Proof.
  intros Hd.
  destruct (toDigits_spec 21 6 draw []) as (ds & Hds & Hlen & Hdig & Hread);
    [lia | exact Hd |].
  rewrite app_nil_r in Hds.
  exists (repeat 48%N (6 - length ds) ++ ds).
  unfold TransferService.createTransfer.
  cbn [TransferService.id]. rewrite padStart_zero.
  unfold TransferService.toString. rewrite Hds.
  unfold jsstring, codeunit in *.
  split; [reflexivity |].
  split; [rewrite length_app, repeat_length; lia |].
  split.
  - rewrite forallb_app, Hdig, andb_true_r.
    apply forallb_forall. intros x Hx. apply repeat_spec in Hx. now subst x.
  - rewrite digits_zeros.
    specialize (Hread 0%N (6 - length ds + 0) []).
    rewrite app_nil_r in Hread. rewrite Hread.
    cbn [digits N.mul N.add]. f_equal. f_equal. lia.
Qed.

(** X22: for every draw below one million [createTransfer] reports
    success with an identifier of nine characters: ["TXN"] followed by
    exactly six decimal digits, the draw written in decimal and padded
    with zeros on the left; so different draws get different
    identifiers. *)
Theorem transaction_id_is_TXN_and_six_digits (draw draw' : N) :
  (draw < 1000000)%N ->
  (draw' < 1000000)%N ->
  TransferService.success (TransferService.createTransfer draw) = true
  /\ length (TransferService.id (TransferService.createTransfer draw)) = 9
  /\ firstn 3 (TransferService.id (TransferService.createTransfer draw))
     = js "TXN"
  /\ forallb isDecimalDigit
             (skipn 3 (TransferService.id
                         (TransferService.createTransfer draw))) = true
  /\ digits 10 0 0
            (skipn 3 (TransferService.id
                        (TransferService.createTransfer draw)))
     = (draw, 6, [])
  /\ (TransferService.id (TransferService.createTransfer draw)
      = TransferService.id (TransferService.createTransfer draw') ->
      draw = draw').
Proof.
  intros Hd Hd'.
  destruct (createTransfer_id draw Hd) as (six & Hid & Hlen & Hdig & Hread).
  destruct (createTransfer_id draw' Hd')
    as (six' & Hid' & _ & _ & Hread').
  rewrite Hid.
  split; [reflexivity |].
  split; [rewrite length_app, Hlen; reflexivity |].
  split; [reflexivity |].
  split; [exact Hdig |].
  split; [exact Hread |].
  rewrite Hid'. intros E. apply app_inv_head in E. subst six'.
  congruence.
Qed.

Lemma transaction_id_is_TXN_and_six_digits_witness :
  TransferService.id (TransferService.createTransfer 4711)
  = js "TXN004711"
  /\ length (TransferService.id (TransferService.createTransfer 4711)) = 9.
Proof.
  destruct (transaction_id_is_TXN_and_six_digits 4711 0)
    as (_ & H & _); [reflexivity | reflexivity |].
  split; [reflexivity | exact H].
Defined.

(** ** The success step of the tabbed wizard *)

(** X23: a second pending timer can put a fresh form into the success
    step and break its rendering.  From the summary of a domestic draft
    with no timer pending: Confirm twice, let the first timer expire,
    click New Transfer, choose the international tab, let the second
    timer expire; the wizard is then in step [success] on the
    international tab with no committed draft, and rendering the
    success sentence throws. *)
Theorem second_timer_breaks_the_success_step (st : State) (d : FormValues) :
  step st = summary ->
  formData st = Some d ->
  timeouts st = [] ->
  activeTab st = domestic ->
  step (run [Confirm; Confirm; Timeout; NewTransfer;
             TabChange international; Timeout] st) = success
  /\ formData (run [Confirm; Confirm; Timeout; NewTransfer;
                    TabChange international; Timeout] st) = None
  /\ activeTab (run [Confirm; Confirm; Timeout; NewTransfer;
                     TabChange international; Timeout] st) = international
  /\ successSentence (run [Confirm; Confirm; Timeout; NewTransfer;
                           TabChange international; Timeout] st) = None.
Proof.
  intros Hs Hd Ht Ha. cbn [run fold_left].
  rewrite (dispatch_Confirm st d Hs Hd).
  rewrite (dispatch_Confirm (handleConfirmTransfer st) d Hs Hd).
  unfold successSentence, dispatch.
  repeat first
    [ rewrite Hs | rewrite Ht | rewrite Ha | rewrite Hd
    | progress cbn [handleConfirmTransfer timeoutCallback setStep
                    handleNewTransfer setFormData setForm handleTabChange
                    setActiveTab tabEffect TransferType_eqb app step
                    activeTab formData timeouts form_ toasts] ].
  repeat split.
Qed.

Lemma second_timer_breaks_the_success_step_witness :
  successSentence
    (run [Confirm; Confirm; Timeout; NewTransfer;
          TabChange international; Timeout]
         (dispatch Submit (editing domestic johnDoe))) = None.
Proof.
  destruct (second_timer_breaks_the_success_step
              (dispatch Submit (editing domestic johnDoe)) johnDoe)
    as (_ & _ & _ & H);
    [reflexivity | reflexivity | reflexivity | reflexivity |].
  exact H.
Defined.
